(** * Link shortener backend (app.py): slug resolution and view accounting

    A shallow embedding of the FastAPI handlers of [app.py] over a model of
    the two SQLite tables they use.  Handlers are written in a small
    state-and-exception monad so that they read like the Python source:
    [get_db_connection], one storage call per [cursor.execute], [commit],
    [close], [raise HTTPException] and [try ... except Exception].

    Modelling conventions
    - SQLite INTEGER columns and Python [int] are [Z].  The counters are far
      below 2^63 (one HTTP request per increment), so the 64-bit edge of
      SQLite's integer arithmetic is outside the model.
    - A table is the list of its rows in rowid order; rows are only appended.
    - Every call into [sqlite3] may raise: the environment carries a fault
      plan saying which storage call (counted per request) raises what.
    - [uuid.uuid4()] and [time.time()] are read from the environment.
    - Python's [float] is IEEE 754 binary64, computed with [SpecFloat].
    - Concurrent requests are threads of [get_final_link] that interleave
      between storage calls, under SQLite's one-writer-at-a-time lock. *)

From Stdlib Require Import ZArith List String Ascii Bool Lia.
From Stdlib Require Import SpecFloat.
From Stdlib Require Import Permutation Sorted.
Import ListNotations.

Local Open Scope string_scope.
Local Open Scope list_scope.
Local Open Scope Z_scope.

(** ** The database schema ([create_database]) *)

(** Table [users]. *)
Module Users.
Record Row := mk {
  uid : string;
  username : string;
  email : string;
  password_hash : string;
  created_at : Z
}.
End Users.

(** Table [urls]. *)
Module Urls.
Record Row := mk {
  id : Z;
  slug : string;
  original_url : string;
  user_uid : string;
  views : Z;
  created_at : Z
}.

(** The row after [SET views = views + 1]. *)
Definition bump (r : Row) : Row :=
  mk (id r) (slug r) (original_url r) (user_uid r) (views r + 1) (created_at r).
End Urls.

(** The database file: both tables and the AUTOINCREMENT sequence of [urls]
    (SQLite's [sqlite_sequence] entry). *)
Record Database := mkDatabase {
  users : list Users.Row;
  urls : list Urls.Row;
  urls_seq : Z
}.

(** The state right after [create_database] on a fresh file. *)
Definition empty_database : Database := mkDatabase [] [] 0.

(** ** Exceptions and responses *)

Inductive SqlError :=
| OperationalError (msg : string)
| IntegrityError (msg : string)
| ProgrammingError (msg : string).

(** Everything a handler can raise; all of these derive from Python's
    [Exception]. *)
Inductive Exn :=
| HTTPException (status_code : Z) (detail : string)
| Sqlite (e : SqlError).

Inductive JsonValue :=
| JBool (b : bool)
| JStr (s : string).

(** Pydantic response models [Link] and [UserStats]. *)
Module Link.
Record t := mk {
  slug : string;
  original_url : string;
  views : Z;
  created_at : Z
}.
End Link.

Module UserStats.
Record t := mk {
  total_views : Z;
  total_earnings : spec_float;
  cpm_rate : spec_float;
  referrals : Z;
  links : list Link.t
}.
End UserStats.

Inductive Response :=
| JSONResponse (status_code : Z) (content : list (string * JsonValue))
| HTMLResponse (content : string)
| RedirectResponse (url : string) (status_code : Z)
| ModelResponse (stats : UserStats.t).

(** ** The handler monad *)

(** What the handler reads from outside the database. *)
Record Env := mkEnv {
  fault_at : nat -> option SqlError;  (* the n-th storage call raises this *)
  uuid_at : nat -> string;            (* hex digits of the n-th uuid4 *)
  now : Z                             (* int(time.time()) *)
}.

Record World := mkWorld {
  db : Database;     (* committed content of the database file *)
  env : Env;
  calls : nat;       (* storage calls made so far *)
  draws : nat        (* uuids drawn so far *)
}.

Inductive Outcome (A : Type) :=
| Return (a : A)
| Raise (e : Exn).
Arguments Return {A} a.
Arguments Raise {A} e.

Definition M (A : Type) : Type := World -> Outcome A * World.

Definition ret {A} (a : A) : M A := fun w => (Return a, w).

Definition bind {A B} (m : M A) (k : A -> M B) : M B :=
  fun w =>
    match m w with
    | (Return a, w') => k a w'
    | (Raise e, w') => (Raise e, w')
    end.

Definition raise {A} (e : Exn) : M A := fun w => (Raise e, w).

(** [try: body except Exception as e: handler]. *)
Definition try_except {A} (body : M A) (handler : Exn -> M A) : M A :=
  fun w =>
    match body w with
    | (Return a, w') => (Return a, w')
    | (Raise e, w') => handler e w'
    end.

Declare Scope py_scope.
Delimit Scope py_scope with py.
Notation "x <- m ;; k" := (bind m (fun x => k))
  (at level 100, m at next level, right associativity) : py_scope.
Notation "m ;; k" := (bind m (fun _ => k))
  (at level 100, right associativity) : py_scope.
Local Open Scope py_scope.

(** ** The storage layer ([sqlite3]) *)

(** One call into sqlite3: it is counted, and raises when the fault plan
    says so. *)
Definition storage_call : M unit :=
  fun w =>
    let w' := mkWorld (db w) (env w) (S (calls w)) (draws w) in
    match fault_at (env w) (calls w) with
    | Some e => (Raise (Sqlite e), w')
    | None => (Return tt, w')
    end.

(** A connection: its open transaction, if any (the uncommitted working
    copy), and whether [close] was called. *)
Record Conn := mkConn {
  txn : option Database;
  is_open : bool
}.

Definition closed_error : Exn :=
  Sqlite (ProgrammingError "Cannot operate on a closed database.").

(** What the connection reads: its own uncommitted copy inside a
    transaction, the committed file otherwise. *)
Definition snapshot (conn : Conn) (committed : Database) : Database :=
  match txn conn with
  | Some d => d
  | None => committed
  end.

Definition get_db_connection : M Conn :=
  storage_call ;; ret (mkConn None true).

(** [cursor.execute(SELECT ...)] followed by the fetch. *)
Definition execute_query {A} (conn : Conn) (q : Database -> A) : M A :=
  if is_open conn then
    storage_call ;; (fun w => (Return (q (snapshot conn (db w))), w))
  else raise closed_error.

(** [cursor.execute(INSERT/UPDATE ...)]: opens a transaction implicitly and
    changes the connection's working copy only. *)
Definition execute_dml (conn : Conn) (stmt : Database -> SqlError + Database)
  : M Conn :=
  if is_open conn then
    storage_call ;;
    (fun w =>
       match stmt (snapshot conn (db w)) with
       | inr d' => (Return (mkConn (Some d') true), w)
       | inl e => (Raise (Sqlite e), w)
       end)
  else raise closed_error.

(** [conn.commit()]: the working copy becomes the committed content. *)
Definition commit (conn : Conn) : M Conn :=
  if is_open conn then
    storage_call ;;
    (fun w =>
       (Return (mkConn None true),
        mkWorld (snapshot conn (db w)) (env w) (calls w) (draws w)))
  else raise closed_error.

(** [conn.close()]: an uncommitted transaction is dropped. *)
Definition close (conn : Conn) : M Conn := ret (mkConn None false).

(** ** Python values used by the handlers *)

Module Py.

(** Python's [float] is IEEE 754 binary64. *)
Definition prec : Z := 53.
Definition emax : Z := 1024.

(** An [int] as an exact (not yet rounded) operand. *)
Definition exact_int (z : Z) : spec_float :=
  match z with
  | Z0 => S754_zero false
  | Zpos p => S754_finite false p 0
  | Zneg p => S754_finite true p 0
  end.

(** [float(z)]. *)
Definition float_of_int (z : Z) : spec_float :=
  binary_normalize prec emax z 0 false.

(** [a / b] on two [int]s: the correctly rounded quotient. *)
Definition int_truediv (a b : Z) : spec_float :=
  SFdiv prec emax (exact_int a) (exact_int b).

(** [x * y] on two [float]s. *)
Definition float_mul (x y : spec_float) : spec_float :=
  SFmul prec emax x y.

(** [n / d] rounded to the nearest integer, ties to even
    ([0 <= n], [0 < d]). *)
Definition div_half_even (n d : Z) : Z :=
  let q := n / d in
  match (2 * (n mod d)) ?= d with
  | Lt => q
  | Gt => q + 1
  | Eq => if Z.even q then q else q + 1
  end.

(** [round(x, ndigits)] for a float and [0 <= ndigits]: the exact value of
    [x] is rounded half-even to [ndigits] decimals, and that decimal is
    converted back to the nearest float. *)
Definition round (x : spec_float) (ndigits : Z) : spec_float :=
  match x with
  | S754_finite s m e =>
      let scale := 10 ^ ndigits in
      let h :=
        if 0 <=? e then Zpos m * 2 ^ e * scale
        else div_half_even (Zpos m * scale) (2 ^ (- e)) in
      if h =? 0 then S754_zero s
      else SFdiv prec emax (exact_int (if s then - h else h)) (exact_int scale)
  | _ => x
  end.

(** [x or 0] for the value of an SQL aggregate ([None] is SQL NULL). *)
Definition or_zero (x : option Z) : Z :=
  match x with
  | Some v => if v =? 0 then 0 else v
  | None => 0
  end.

(** [s.rstrip('/')]. *)
Fixpoint rstrip_slash (s : string) : string :=
  match s with
  | EmptyString => EmptyString
  | String c rest =>
      match rstrip_slash rest with
      | EmptyString =>
          if Ascii.eqb c "/" then EmptyString else String c EmptyString
      | kept => String c kept
      end
  end.

(** [str(u)] for a UUID given by its 32 hex digits. *)
Definition uuid_str (hex : string) : string :=
  (substring 0 8 hex ++ "-" ++ substring 8 4 hex ++ "-" ++
   substring 12 4 hex ++ "-" ++ substring 16 4 hex ++ "-" ++
   substring 20 12 hex)%string.

End Py.

(** [uuid.uuid4().hex]. *)
Definition uuid4_hex : M string :=
  fun w =>
    (Return (uuid_at (env w) (draws w)),
     mkWorld (db w) (env w) (calls w) (S (draws w))).

(** [int(time.time())]. *)
Definition time_now : M Z := fun w => (Return (now (env w)), w).

(** ** Request models *)

Module UserRegister.
Record t := mk { username : string; email : string; password : string }.
End UserRegister.

Module UserLogin.
Record t := mk { username : string; password : string }.
End UserLogin.

Module UrlShorten.
Record t := mk { url : string; user_uid : string }.
End UrlShorten.

(** The part of Starlette's [Request] that the handlers read. *)
Module HttpRequest.
Record t := mk { base_url : string }.
End HttpRequest.

(** ** The SQL statements of the handlers *)

Module Sql.

Definition slug_is (s : string) (r : Urls.Row) : bool :=
  String.eqb (Urls.slug r) s.

Definition owner_is (u : string) (r : Urls.Row) : bool :=
  String.eqb (Urls.user_uid r) u.

(** SELECT original_url FROM urls WHERE slug = ? *)
Definition select_original_url (slug : string) (d : Database) : option string :=
  option_map Urls.original_url (find (slug_is slug) (urls d)).

(** UPDATE urls SET views = views + 1 WHERE slug = ? *)
Definition update_views (slug : string) (d : Database) : Database :=
  mkDatabase (users d)
    (map (fun r => if slug_is slug r then Urls.bump r else r) (urls d))
    (urls_seq d).

(** SELECT slug FROM urls WHERE original_url = ? AND user_uid = ? *)
Definition select_slug (url user_uid : string) (d : Database) : option string :=
  option_map Urls.slug
    (find (fun r => String.eqb (Urls.original_url r) url && owner_is user_uid r)
          (urls d)).

(** The id AUTOINCREMENT gives the next row. *)
Definition next_id (d : Database) : Z :=
  Z.max (urls_seq d) (fold_right Z.max 0 (map Urls.id (urls d))) + 1.

(** INSERT INTO urls (slug, original_url, user_uid, views, created_at)
    VALUES (?, ?, ?, 0, ?) *)
Definition insert_url (slug url user_uid : string) (created_at : Z)
    (d : Database) : SqlError + Database :=
  if existsb (slug_is slug) (urls d) then
    inl (IntegrityError "UNIQUE constraint failed: urls.slug")
  else
    let i := next_id d in
    inr (mkDatabase (users d)
           (urls d ++ [Urls.mk i slug url user_uid 0 created_at]) i).

(** SELECT SUM(views) AS total_views FROM urls WHERE user_uid = ? *)
Definition select_sum_views (user_uid : string) (d : Database) : option Z :=
  match filter (owner_is user_uid) (urls d) with
  | [] => None
  | rows => Some (fold_right Z.add 0 (map Urls.views rows))
  end.

Fixpoint insert_desc (r : Urls.Row) (sorted : list Urls.Row) : list Urls.Row :=
  match sorted with
  | [] => [r]
  | x :: rest =>
      if Urls.created_at x <=? Urls.created_at r then r :: sorted
      else x :: insert_desc r rest
  end.

(** ORDER BY created_at DESC (rows with equal keys stay in rowid order). *)
Definition order_by_created_desc (rows : list Urls.Row) : list Urls.Row :=
  fold_right insert_desc [] rows.

(** SELECT slug, original_url, views, created_at FROM urls
    WHERE user_uid = ? ORDER BY created_at DESC *)
Definition select_links (user_uid : string) (d : Database) : list Link.t :=
  map (fun r => Link.mk (Urls.slug r) (Urls.original_url r) (Urls.views r)
                  (Urls.created_at r))
      (order_by_created_desc (filter (owner_is user_uid) (urls d))).

(** SELECT * FROM users WHERE username = ? OR email = ? *)
Definition select_user_by_name_or_email (username email : string)
    (d : Database) : option Users.Row :=
  find (fun r => String.eqb (Users.username r) username
                 || String.eqb (Users.email r) email)
       (users d).

(** SELECT * FROM users WHERE username = ? *)
Definition select_user_by_name (username : string) (d : Database)
  : option Users.Row :=
  find (fun r => String.eqb (Users.username r) username) (users d).

(** INSERT INTO users (uid, username, email, password_hash, created_at)
    VALUES (?, ?, ?, ?, ?) *)
Definition insert_user (r : Users.Row) (d : Database) : SqlError + Database :=
  if existsb (fun x => String.eqb (Users.uid x) (Users.uid r)) (users d) then
    inl (IntegrityError "UNIQUE constraint failed: users.uid")
  else if existsb (fun x => String.eqb (Users.username x) (Users.username r))
                  (users d) then
    inl (IntegrityError "UNIQUE constraint failed: users.username")
  else if existsb (fun x => String.eqb (Users.email x) (Users.email r))
                  (users d) then
    inl (IntegrityError "UNIQUE constraint failed: users.email")
  else inr (mkDatabase (users d ++ [r]) (urls d) (urls_seq d)).

End Sql.

(** ** The two interstitial pages

    The f-string templates of [serve_ad_page_1] and
    [serve_ad_page_2_content], cut at their holes; [dq] stands for the
    double-quote character of the source text. *)

Definition dq : string := String (ascii_of_nat 34) EmptyString.

(** Interstitial 1, up to the base URL. *)
Definition page1_head : string :=
  String.concat dq
    ["
<!DOCTYPE html>
<html lang=";
     "en";
     ">
<head>
    <meta charset=";
     "UTF-8";
     ">
    <meta name=";
     "viewport";
     " content=";
     "width=device-width, initial-scale=1.0";
     ">
    <title>Please wait...</title>
    <script src=";
     "https://cdn.tailwindcss.com";
     "></script>
    <style>
        body {
            margin: 0;
            overflow-x: hidden;
        }
        #ad-frame {
            position: fixed;
            top: 0;
            left: 0;
            width: 100%;
            height: 100%;
            border: none;
            z-index: 1000;
        }
    </style>
</head>
<body class=";
     "bg-gray-50 flex items-center justify-center min-h-screen";
     ">
    <div class=";
     "bg-white p-8 rounded-lg shadow-xl text-center max-w-sm";
     ">
        <h1 class=";
     "text-2xl font-bold mb-4";
     ">Your link is almost ready!</h1>
        <p class=";
     "text-gray-600 mb-6";
     ">Please wait for <span id=";
     "countdown";
     " class=";
     "font-bold text-red-500";
     ">5</span> seconds.</p>

        <div class=";
     "bg-gray-200 p-4 rounded-md mb-6";
     ">
            <p class=";
     "text-gray-500";
     ">This is a placeholder for your ads.</p>
        </div>

        <button id=";
     "get-link-btn";
     " class=";
     "w-full bg-blue-600 hover:bg-blue-700 text-white font-medium py-3 rounded-lg opacity-50 cursor-not-allowed";
     " disabled>
            Get Link
        </button>
    </div>

    <script>
        let countdown = 5;
        const countdownEl = document.getElementById('countdown');
        const getLinkBtn = document.getElementById('get-link-btn');
        const baseUrl = ";
     EmptyString].

(** Interstitial 1, between the base URL and the slug. *)
Definition page1_mid : string :=
  String.concat dq
    [EmptyString;
     ";

        // Add message listener for iframe communication
        window.addEventListener('message', function(event) {
            if (event.data.action === 'redirect') {
                window.location.href = `${baseUrl}/go_to_original/${event.data.slug}`;
            }
        });

        const timer = setInterval(() => {
            countdown--;
            countdownEl.textContent = countdown;
            if (countdown <= 0) {
                clearInterval(timer);
                getLinkBtn.disabled = false;
                getLinkBtn.classList.remove('opacity-50', 'cursor-not-allowed');
                getLinkBtn.classList.add('hover:bg-blue-700');
                getLinkBtn.textContent = 'Get Link';
            }
        }, 1000);

        getLinkBtn.addEventListener('click', () => {
            // Create fullscreen iframe to load second ad page
            const iframe = document.createElement('iframe');
            iframe.id = 'ad-frame';
            iframe.src = `${baseUrl}/ad_page2_content/"].

(** Interstitial 1, after the slug. *)
Definition page1_tail : string :=
  String.concat dq
    ["`;
            document.body.innerHTML = '';
            document.body.appendChild(iframe);
        });
    </script>
</body>
</html>
"].

(** Interstitial 2, up to the first slug. *)
Definition page2_head : string :=
  String.concat dq
    ["
<!DOCTYPE html>
<html lang=";
     "en";
     ">
<head>
    <meta charset=";
     "UTF-8";
     ">
    <meta name=";
     "viewport";
     " content=";
     "width=device-width, initial-scale=1.0";
     ">
    <title>Final Step!</title>
    <script src=";
     "https://cdn.tailwindcss.com";
     "></script>
</head>
<body class=";
     "bg-gray-50 flex items-center justify-center min-h-screen";
     ">
    <div class=";
     "bg-white p-8 rounded-lg shadow-xl text-center max-w-sm";
     ">
        <h1 class=";
     "text-2xl font-bold mb-4";
     ">You are almost there!</h1>
        <p class=";
     "text-gray-600 mb-6";
     ">Please wait another <span id=";
     "countdown_2";
     " class=";
     "font-bold text-red-500";
     ">5</span> seconds.</p>

        <div class=";
     "bg-gray-200 p-4 rounded-md mb-6";
     ">
            <p class=";
     "text-gray-500";
     ">This is a placeholder for your second ad.</p>
        </div>

        <button id=";
     "get-final-link-btn";
     " class=";
     "w-full bg-blue-600 hover:bg-blue-700 text-white font-medium py-3 rounded-lg opacity-50 cursor-not-allowed";
     " disabled>
            Get Final Link
        </button>
    </div>

    <script>
        const slug = ";
     EmptyString].

(** Interstitial 2, between the two slugs. *)
Definition page2_mid : string :=
  String.concat dq
    [EmptyString;
     ";
        let countdown_2 = 5;
        const countdownEl_2 = document.getElementById('countdown_2');
        const getFinalLinkBtn = document.getElementById('get-final-link-btn');

        const timer_2 = setInterval(() => {
            countdown_2--;
            countdownEl_2.textContent = countdown_2;
            if (countdown_2 <= 0) {
                clearInterval(timer_2);
                getFinalLinkBtn.disabled = false;
                getFinalLinkBtn.classList.remove('opacity-50', 'cursor-not-allowed');
                getFinalLinkBtn.classList.add('hover:bg-blue-700');
                getFinalLinkBtn.textContent = 'Get Final Link';
            }
        }, 1000);

        getFinalLinkBtn.addEventListener('click', () => {
            // Tell parent window to redirect to final URL
            window.parent.postMessage({
                action: 'redirect',
                slug: ";
     EmptyString].

(** Interstitial 2, after the second slug. *)
Definition page2_tail : string :=
  String.concat dq
    [EmptyString;
     "
            }, '*');
        });
    </script>
</body>
</html>
"].

(** The f-string of [serve_ad_page_1]. *)
Definition ad_page_1_html (base_url slug : string) : string :=
  (page1_head ++ base_url ++ page1_mid ++ slug ++ page1_tail)%string.

(** The f-string of [serve_ad_page_2_content]. *)
Definition ad_page_2_html (slug : string) : string :=
  (page2_head ++ slug ++ page2_mid ++ slug ++ page2_tail)%string.

(** ** The endpoints *)

(** [generate_slug]: uuid.uuid4().hex[:7]. *)
Definition generate_slug : M string :=
  hex <- uuid4_hex ;; ret (substring 0 7 hex).

Section Handlers.

(** [hashlib.sha256(data).hexdigest()]. *)
Variable sha256_hexdigest : string -> string.

Definition hash_password (password : string) : string :=
  sha256_hexdigest password.

(** POST /register_user_data *)
Definition register_user_data (user : UserRegister.t) : M Response :=
  try_except
    (conn <- get_db_connection ;;
     existing_user <-
       execute_query conn
         (Sql.select_user_by_name_or_email (UserRegister.username user)
            (UserRegister.email user)) ;;
     let insert_new_user (conn : Conn) : M Response :=
       hex <- uuid4_hex ;;
       let uid := Py.uuid_str hex in
       let password_hash := hash_password (UserRegister.password user) in
       created_at <- time_now ;;
       conn <-
         execute_dml conn
           (Sql.insert_user
              (Users.mk uid (UserRegister.username user)
                 (UserRegister.email user) password_hash created_at)) ;;
       conn <- commit conn ;;
       close conn ;;
       ret (JSONResponse 200
              [("success", JBool true);
               ("message", JStr "Registration successful!")]) in
     match existing_user with
     | Some existing =>
         conn <- close conn ;;
         if String.eqb (Users.username existing) (UserRegister.username user)
         then ret (JSONResponse 200
                     [("success", JBool false);
                      ("message", JStr "Username already taken.")])
         else if String.eqb (Users.email existing) (UserRegister.email user)
         then ret (JSONResponse 200
                     [("success", JBool false);
                      ("message", JStr "Email already in use.")])
         else insert_new_user conn
     | None => insert_new_user conn
     end)
    (fun e =>
       ret (JSONResponse 500
              [("success", JBool false);
               ("message", JStr "An unexpected error occurred.")])).

(** POST /login_user_data *)
Definition login_user_data (user : UserLogin.t) : M Response :=
  try_except
    (conn <- get_db_connection ;;
     found_user <-
       execute_query conn (Sql.select_user_by_name (UserLogin.username user)) ;;
     close conn ;;
     let invalid :=
       JSONResponse 200
         [("success", JBool false);
          ("message", JStr "Invalid username or password.")] in
     match found_user with
     | None => ret invalid
     | Some found =>
         if negb (String.eqb (Users.password_hash found)
                    (hash_password (UserLogin.password user)))
         then ret invalid
         else ret (JSONResponse 200
                     [("success", JBool true);
                      ("message", JStr "Login successful!");
                      ("username", JStr (Users.username found));
                      ("uid", JStr (Users.uid found))])
     end)
    (fun e =>
       ret (JSONResponse 500
              [("success", JBool false);
               ("message", JStr "An unexpected error occurred.")])).

(** POST /shorten_url *)
Definition shorten_url (link : UrlShorten.t) : M Response :=
  try_except
    (conn <- get_db_connection ;;
     existing_slug <-
       execute_query conn
         (Sql.select_slug (UrlShorten.url link) (UrlShorten.user_uid link)) ;;
     match existing_slug with
     | Some existing =>
         close conn ;;
         ret (JSONResponse 200
                [("success", JBool true);
                 ("slug", JStr existing);
                 ("message", JStr "URL already shortened.")])
     | None =>
         slug <- generate_slug ;;
         created_at <- time_now ;;
         conn <-
           execute_dml conn
             (Sql.insert_url slug (UrlShorten.url link)
                (UrlShorten.user_uid link) created_at) ;;
         conn <- commit conn ;;
         close conn ;;
         ret (JSONResponse 200 [("success", JBool true); ("slug", JStr slug)])
     end)
    (fun e =>
       ret (JSONResponse 500
              [("success", JBool false);
               ("message", JStr "URL shortening failed.")])).

(** Enter: GET /{slug} *)
Definition serve_ad_page_1 (slug : string) (request : HttpRequest.t)
  : M Response :=
  conn <- get_db_connection ;;
  result <- execute_query conn (Sql.select_original_url slug) ;;
  match result with
  | None =>
      close conn ;;
      raise (HTTPException 404 "Slug not found.")
  | Some _ =>
      close conn ;;
      let base_url := Py.rstrip_slash (HttpRequest.base_url request) in
      ret (HTMLResponse (ad_page_1_html base_url slug))
  end.

(** Advance: GET /ad_page2_content/{slug} *)
Definition serve_ad_page_2_content (slug : string) : M Response :=
  ret (HTMLResponse (ad_page_2_html slug)).

(** Resolve: GET /go_to_original/{slug} *)
Definition get_final_link (slug : string) : M Response :=
  conn <- get_db_connection ;;
  result <- execute_query conn (Sql.select_original_url slug) ;;
  match result with
  | Some original_url =>
      conn <- execute_dml conn (fun d => inr (Sql.update_views slug d)) ;;
      conn <- commit conn ;;
      close conn ;;
      ret (RedirectResponse original_url 302)
  | None =>
      close conn ;;
      raise (HTTPException 404 "Original URL not found.")
  end.

(** The float literal [4.00]. *)
Definition cpm : spec_float := S754_finite false 4503599627370496 (-50).

(** GET /api/user_stats *)
Definition get_user_stats (user_uid : string) : M Response :=
  try_except
    (conn <- get_db_connection ;;
     summed <- execute_query conn (Sql.select_sum_views user_uid) ;;
     let total_views := Py.or_zero summed in
     let total_earnings :=
       Py.float_mul (Py.int_truediv total_views 1000) cpm in
     links <- execute_query conn (Sql.select_links user_uid) ;;
     close conn ;;
     ret (ModelResponse
            (UserStats.mk total_views (Py.round total_earnings 2) cpm 0 links)))
    (fun e => raise (HTTPException 500 "Error fetching user stats.")).

(** ** Requests and their dispatch *)

Inductive Request :=
| PostRegister (user : UserRegister.t)
| PostLogin (user : UserLogin.t)
| PostShorten (link : UrlShorten.t)
| Enter (slug : string) (request : HttpRequest.t)
| Advance (slug : string)
| Resolve (slug : string)
| GetUserStats (user_uid : string).

Definition handle (r : Request) : M Response :=
  match r with
  | PostRegister user => register_user_data user
  | PostLogin user => login_user_data user
  | PostShorten link => shorten_url link
  | Enter slug request => serve_ad_page_1 slug request
  | Advance slug => serve_ad_page_2_content slug
  | Resolve slug => get_final_link slug
  | GetUserStats user_uid => get_user_stats user_uid
  end.

(** One request served against the database [d] in environment [e]. *)
Definition serve (r : Request) (e : Env) (d : Database)
  : Outcome Response * Database :=
  let (out, w) := handle r (mkWorld d e 0 0) in (out, db w).

(** A sequence of requests, served one after the other. *)
Fixpoint serve_all (rs : list (Request * Env)) (d : Database) : Database :=
  match rs with
  | [] => d
  | (r, e) :: rest => serve_all rest (snd (serve r e d))
  end.

End Handlers.

(** The HTTP status the framework answers with: the response's own status,
    the status of an [HTTPException], 500 for any other exception. *)
Definition http_status (out : Outcome Response) : Z :=
  match out with
  | Return (JSONResponse status_code _) => status_code
  | Return (HTMLResponse _) => 200
  | Return (RedirectResponse _ status_code) => status_code
  | Return (ModelResponse _) => 200
  | Raise (HTTPException status_code _) => status_code
  | Raise (Sqlite _) => 500
  end.

(** ** Properties *)

(** Storage works: no storage call of the request raises. *)
Definition healthy (w : World) : Prop :=
  forall n, fault_at (env w) n = None.

(** The UNIQUE constraint on [urls.slug]. *)
Definition unique_slugs (d : Database) : Prop :=
  NoDup (map Urls.slug (urls d)).

(** [needle] occurs in [text]. *)
Definition embeds (needle text : string) : Prop :=
  exists before after, text = (before ++ needle ++ after)%string.

(** The storage layer raised during the run from [w] to [w']: one of the
    storage calls made in between is a fault of the plan. *)
Definition storage_raised (w w' : World) (e : SqlError) : Prop :=
  exists n, (calls w <= n < calls w')%nat /\ fault_at (env w) n = Some e.

(** The sum of the views of the links a user owns. *)
Definition owned_views (user_uid : string) (d : Database) : Z :=
  fold_right Z.add 0
    (map Urls.views (filter (Sql.owner_is user_uid) (urls d))).

(** The view count stored for a slug. *)
Definition views_of (slug : string) (d : Database) : option Z :=
  option_map Urls.views (find (Sql.slug_is slug) (urls d)).

(** A row and what became of it: the same link, with no fewer views. *)
Definition row_grows (r r' : Urls.Row) : Prop :=
  Urls.id r' = Urls.id r /\
  Urls.slug r' = Urls.slug r /\
  Urls.original_url r' = Urls.original_url r /\
  Urls.user_uid r' = Urls.user_uid r /\
  Urls.created_at r' = Urls.created_at r /\
  Urls.views r <= Urls.views r'.

(** A link table and a later one: every row grew, and the rows that came
    after were created with no views or grew from such a row. *)
Definition table_grows (rows rows' : list Urls.Row) : Prop :=
  exists kept created,
    rows' = kept ++ created /\
    Forall2 row_grows rows kept /\
    Forall (fun r => 0 <= Urls.views r) created.

Definition views_non_negative (d : Database) : Prop :=
  Forall (fun r => 0 <= Urls.views r) (urls d).

(** ** Concurrent Resolve calls

    Each Resolve request is a thread of [get_final_link] with its own
    connection; the threads interleave between storage calls.  The storage
    layer is SQLite's: one writer at a time.  The first write of a
    transaction takes the write lock of the database file and the lock is
    held until the transaction ends; a connection that finds the lock taken
    waits, and raises ("database is locked") if its wait times out. *)

Module Concurrent.

(** Where a thread of [get_final_link] stands: before which storage call,
    with which local variables. *)
Inductive Pc :=
| AtConnect
| AtSelect (conn : Conn)
| AtUpdate (conn : Conn) (original_url : string)
| AtCommit (conn : Conn) (original_url : string)
| Done (out : Outcome Response).

(** [get_final_link], one storage call at a time. *)
Definition resolve_step (slug : string) (pc : Pc) : M Pc :=
  match pc with
  | AtConnect =>
      conn <- get_db_connection ;;
      ret (AtSelect conn)
  | AtSelect conn =>
      result <- execute_query conn (Sql.select_original_url slug) ;;
      match result with
      | Some original_url => ret (AtUpdate conn original_url)
      | None =>
          close conn ;;
          ret (Done (Raise (HTTPException 404 "Original URL not found.")))
      end
  | AtUpdate conn original_url =>
      conn <- execute_dml conn (fun d => inr (Sql.update_views slug d)) ;;
      ret (AtCommit conn original_url)
  | AtCommit conn original_url =>
      conn <- commit conn ;;
      close conn ;;
      ret (Done (Return (RedirectResponse original_url 302)))
  | Done out => ret (Done out)
  end.

(** What the scheduler does next: thread [t] makes its next storage call,
    or that call raises [e] (a timeout on the lock, an I/O error). *)
Inductive Event :=
| Run (t : nat)
| Fail (t : nat) (e : SqlError).

Record System := mkSystem {
  store : Database;        (* committed content of the database file *)
  writer : option nat;     (* the thread holding the write lock *)
  threads : list Pc
}.

Fixpoint set_nth {A} (n : nat) (x : A) (l : list A) : list A :=
  match l, n with
  | [], _ => []
  | _ :: rest, O => x :: rest
  | y :: rest, S n' => y :: set_nth n' x rest
  end.

(** The thread's connection has an open write transaction. *)
Definition in_txn (pc : Pc) : bool :=
  match pc with
  | AtSelect conn | AtUpdate conn _ | AtCommit conn _ =>
      match txn conn with Some _ => true | None => false end
  | AtConnect | Done _ => false
  end.

(** The thread's next call is a write. *)
Definition writes_next (pc : Pc) : bool :=
  match pc with
  | AtUpdate _ _ => true
  | _ => false
  end.

Definition locked_by_other (writer : option nat) (t : nat) : bool :=
  match writer with
  | Some t' => negb (Nat.eqb t' t)
  | None => false
  end.

Definition release (t : nat) (writer : option nat) : option nat :=
  match writer with
  | Some t' => if Nat.eqb t' t then None else writer
  | None => None
  end.

(** The environment of a storage call that is made and does not fail. *)
Definition quiet : Env := mkEnv (fun _ => None) (fun _ => EmptyString) 0.

Definition step (slug : string) (ev : Event) (sys : System) : System :=
  match ev with
  | Run t =>
      match nth_error (threads sys) t with
      | None => sys
      | Some (Done _) => sys
      | Some pc =>
          if writes_next pc && locked_by_other (writer sys) t then sys
          else
            match resolve_step slug pc (mkWorld (store sys) quiet 0 0) with
            | (Return pc', w) =>
                mkSystem (db w)
                  (if in_txn pc' then Some t else release t (writer sys))
                  (set_nth t pc' (threads sys))
            | (Raise e, w) =>
                mkSystem (db w) (release t (writer sys))
                  (set_nth t (Done (Raise e)) (threads sys))
            end
      end
  | Fail t e =>
      match nth_error (threads sys) t with
      | None => sys
      | Some (Done _) => sys
      | Some _ =>
          mkSystem (store sys) (release t (writer sys))
            (set_nth t (Done (Raise (Sqlite e))) (threads sys))
      end
  end.

Fixpoint run (slug : string) (schedule : list Event) (sys : System) : System :=
  match schedule with
  | [] => sys
  | ev :: rest => run slug rest (step slug ev sys)
  end.

(** [n] requests arrive on the database [d]. *)
Definition start (n : nat) (d : Database) : System :=
  mkSystem d None (repeat AtConnect n).







End Concurrent.

(** ** Sample data *)

Definition sample_env : Env :=
  mkEnv (fun _ => None) (fun _ => "0123456789abcdef0123456789abcdef") 1700000000.

Definition sample_row : Urls.Row :=
  Urls.mk 1 "abc123" "https://example.com" "u1" 7 1690000000.

Definition sample_world : World :=
  mkWorld (mkDatabase [] [sample_row] 1) sample_env 0 0.



(** The database file cannot be opened. *)
Definition failing_env : Env :=
  mkEnv (fun _ => Some (OperationalError "unable to open database file"))
    (fun _ => "0123456789abcdef0123456789abcdef") 1700000000.

Definition failing_world : World :=
  mkWorld (mkDatabase [] [sample_row] 1) failing_env 0 0.

(** A stand-in for SHA-256 in the sample runs. *)
Definition sample_digest (data : string) : string := ("sha256:" ++ data)%string.

(** A user whose two links have 2500 views together. *)
Definition paid_world : World :=
  mkWorld
    (mkDatabase []
       [Urls.mk 1 "aaaaaaa" "https://a.example" "u1" 1000 1690000000;
        Urls.mk 2 "bbbbbbb" "https://b.example" "u2" 40 1690000001;
        Urls.mk 3 "ccccccc" "https://c.example" "u1" 1500 1690000002] 3)
    sample_env 0 0.

(** A link is created, then visited twice and looked at. *)
Definition sample_creation : list (Request * Env) :=
  [(PostShorten (UrlShorten.mk "https://x.com" "u1"), sample_env)].

Definition sample_visits : list (Request * Env) :=
  [(Enter "0123456" (HttpRequest.mk "http://short.example/"), sample_env);
   (Advance "0123456", sample_env);
   (Resolve "0123456", sample_env);
   (Resolve "0123456", failing_env);
   (PostShorten (UrlShorten.mk "https://x.com" "u1"), sample_env);
   (Resolve "0123456", sample_env);
   (GetUserStats "u1", sample_env)].

(** Structural equality of floats. *)
Definition float_eqb (x y : spec_float) : bool :=
  match x, y with
  | S754_zero a, S754_zero b => Bool.eqb a b
  | S754_infinity a, S754_infinity b => Bool.eqb a b
  | S754_nan, S754_nan => true
  | S754_finite a m e, S754_finite b n f =>
      Bool.eqb a b && Pos.eqb m n && Z.eqb e f
  | _, _ => false
  end.

(** The earnings [get_user_stats] computes from the total. *)
Definition earnings (total_views : Z) : spec_float :=
  Py.round (Py.float_mul (Py.int_truediv total_views 1000) cpm) 2.

(** The earnings in exact arithmetic: total * 4 / 1000 rounded half-even to
    whole hundredths, then the float nearest to that decimal. *)
Definition earnings_exact (total_views : Z) : spec_float :=
  let hundredths := Py.div_half_even (total_views * 4 * 100) 1000 in
  if hundredths =? 0 then S754_zero false
  else SFdiv Py.prec Py.emax (Py.exact_int hundredths) (Py.exact_int 100).

Fixpoint all_below (f : Z -> bool) (n : nat) : bool :=
  match n with
  | O => true
  | S k => f (Z.of_nat k) && all_below f k
  end.

(** ** Accounts *)

(** The UNIQUE constraints of the [users] table. *)
Definition unique_users (d : Database) : Prop :=
  NoDup (map Users.username (users d)) /\
  NoDup (map Users.email (users d)) /\
  NoDup (map Users.uid (users d)).

(** The body of every rejection of register_user_data and login_user_data. *)
Definition rejection (message : string) : Response :=
  JSONResponse 200 [("success", JBool false); ("message", JStr message)].

(** A registration request, and the row it leaves in the sample
    environment. *)
Definition ann : UserRegister.t :=
  UserRegister.mk "ann" "ann@example.com" "pw".

Definition ann_row : Users.Row :=
  Users.mk "01234567-89ab-cdef-0123-456789abcdef" "ann" "ann@example.com"
    "sha256:pw" 1700000000.

Definition users_world : World :=
  mkWorld (mkDatabase [ann_row] [] 0) sample_env 0 0.

Definition empty_world : World := mkWorld empty_database sample_env 0 0.

(** The requests whose handlers issue no INSERT, UPDATE or commit. *)
Definition reads_only (r : Request) : bool :=
  match r with
  | PostLogin _ | Enter _ _ | Advance _ | GetUserStats _ => true
  | PostRegister _ | PostShorten _ | Resolve _ => false
  end.

(** Ann registers twice, Bob takes her email, Ann logs in. *)
Definition sample_accounts : list (Request * Env) :=
  [(PostRegister ann, sample_env);
   (PostRegister ann, sample_env);
   (PostRegister (UserRegister.mk "bob" "ann@example.com" "pw2"), sample_env);
   (PostLogin (UserLogin.mk "ann" "pw"), sample_env)].

(** Visits that stop before the last step. *)
Definition sample_browsing : list (Request * Env) :=
  [(Enter "abc123" (HttpRequest.mk "http://short.example/"), sample_env);
   (Advance "abc123", sample_env);
   (Enter "nosuch" (HttpRequest.mk "http://short.example/"), failing_env);
   (GetUserStats "u1", sample_env);
   (PostLogin (UserLogin.mk "ann" "pw"), sample_env)].

(** The sample store, seen by a request whose uuid4 starts like the stored
    slug. *)
Definition collision_env : Env :=
  mkEnv (fun _ => None) (fun _ => "abc123f89abcdef0123456789abcdef0") 1700000001.

Definition collision_world : World :=
  mkWorld (mkDatabase [] [Urls.mk 1 "abc123f" "https://example.com" "u1" 7 1690000000] 1)
    collision_env 0 0.

(** No storage call of a request served in [e] raises. *)
Definition healthy_env (e : Env) : Prop :=
  forall n, fault_at e n = None.

(** ** The statistics *)

(** A row of [urls] as user_stats reports it. *)
Definition link_of (r : Urls.Row) : Link.t :=
  Link.mk (Urls.slug r) (Urls.original_url r) (Urls.views r) (Urls.created_at r).

(** Every link is at least as recent as the links after it. *)
Definition newest_first (links : list Link.t) : Prop :=
  StronglySorted (fun a b => Link.created_at b <= Link.created_at a) links.

(** ** Reading the pages *)

(** [s] without the prefix [p], when it starts with it. *)
Fixpoint strip_prefix (p s : string) : option string :=
  match p, s with
  | EmptyString, _ => Some s
  | String a p', String b s' =>
      if Ascii.eqb a b then strip_prefix p' s' else None
  | String _ _, EmptyString => None
  end.

(** What stands before and after the first occurrence of [needle] in
    [s]. *)
Fixpoint split_at (needle s : string) : option (string * string) :=
  match strip_prefix needle s with
  | Some rest => Some (EmptyString, rest)
  | None =>
      match s with
      | EmptyString => None
      | String c s' =>
          match split_at needle s' with
          | Some (before, after) => Some (String c before, after)
          | None => None
          end
      end
  end.

(** [n] slashes. *)
Fixpoint slashes (n : nat) : string :=
  match n with
  | O => EmptyString
  | S k => String "/" (slashes k)
  end.


(** ** What the two pages must hold *)

(** The Stage-1 content: its title, the visible countdown starting at 5
    seconds, the "Get Link" button that starts disabled and is enabled by
    the timer, the base URL as a script constant, the frame that loads the
    Stage-2 endpoint for the same slug, and the listener that goes to the
    resolving endpoint. *)
Definition is_stage_1_page (base_url slug page : string) : Prop :=
  embeds "<title>Please wait...</title>" page /\
  embeds ("<span id=" ++ dq ++ "countdown" ++ dq ++ " class=" ++ dq ++
          "font-bold text-red-500" ++ dq ++ ">5</span> seconds.") page /\
  embeds ("cursor-not-allowed" ++ dq ++ " disabled>") page /\
  embeds "let countdown = 5;" page /\
  embeds "getLinkBtn.disabled = false;" page /\
  embeds ("const baseUrl = " ++ dq ++ base_url ++ dq ++ ";") page /\
  embeds ("iframe.src = `${baseUrl}/ad_page2_content/" ++ slug ++ "`;") page /\
  embeds
    "window.location.href = `${baseUrl}/go_to_original/${event.data.slug}`;"
    page.

(** The Stage-2 content: its title, its own visible countdown starting at 5
    seconds, the "Get Final Link" button that starts disabled and is
    enabled by its timer, the slug as a script constant, and the redirect
    message with the slug posted to the parent window. *)
Definition is_stage_2_page (slug page : string) : Prop :=
  embeds "<title>Final Step!</title>" page /\
  embeds ("<span id=" ++ dq ++ "countdown_2" ++ dq ++ " class=" ++ dq ++
          "font-bold text-red-500" ++ dq ++ ">5</span> seconds.") page /\
  embeds ("cursor-not-allowed" ++ dq ++ " disabled>") page /\
  embeds "let countdown_2 = 5;" page /\
  embeds "getFinalLinkBtn.disabled = false;" page /\
  embeds ("const slug = " ++ dq ++ slug ++ dq ++ ";") page /\
  embeds
    ("window.parent.postMessage({
                action: 'redirect',
                slug: " ++ dq ++ slug ++ dq)
    page.

(** ** Rounding to two decimals, in exact arithmetic *)

(** [h] hundredths is the two-decimal value nearest to the magnitude of
    [x], the even one when [x] lies half way between two. *)
Definition nearest_hundredths (x : spec_float) (h : Z) : Prop :=
  match x with
  | S754_zero _ => h = 0
  | S754_finite _ m e =>
      let num := if 0 <=? e then Zpos m * 2 ^ e * 100 else Zpos m * 100 in
      let den := if 0 <=? e then 1 else 2 ^ (- e) in
      0 <= h /\
      Z.abs (2 * (num - h * den)) <= den /\
      (Z.abs (2 * (num - h * den)) = den -> Z.even h = true)
  | S754_infinity _ | S754_nan => False
  end.

Definition is_negative (x : spec_float) : bool :=
  match x with
  | S754_zero s | S754_infinity s | S754_finite s _ _ => s
  | S754_nan => false
  end.

(** The float nearest to [h / 100], with the given sign. *)
Definition float_of_hundredths (negative : bool) (h : Z) : spec_float :=
  if h =? 0 then S754_zero negative
  else SFdiv Py.prec Py.emax
         (Py.exact_int (if negative then - h else h)) (Py.exact_int 100).

(** [r] is [x] rounded to two decimal places. *)
Definition rounded_to_hundredths (x r : spec_float) : Prop :=
  match x with
  | S754_infinity _ | S754_nan => r = x
  | _ =>
      exists h, nearest_hundredths x h /\
                r = float_of_hundredths (is_negative x) h
  end.

(** A user whose only link has 1234 views: 4.936 before rounding. *)
Definition odd_world : World :=
  mkWorld
    (mkDatabase [] [Urls.mk 1 "ddddddd" "https://d.example" "u3" 1234 1690000003] 1)
    sample_env 0 0.

(** ** user_stats while other requests are served *)

(** The requests [others] are served to completion, each on its own
    connection, while the current request waits. *)
Definition meanwhile (sha : string -> string) (others : list (Request * Env))
  : M unit :=
  fun w =>
    (Return tt,
     mkWorld (serve_all sha others (db w)) (env w) (calls w) (draws w)).

(** [get_user_stats] when [others] are served between its two SELECTs: the
    connection is outside any transaction, so the second SELECT reads what
    they committed. *)
Definition get_user_stats_amid (sha : string -> string) (user_uid : string)
    (others : list (Request * Env)) : M Response :=
  try_except
    (conn <- get_db_connection ;;
     summed <- execute_query conn (Sql.select_sum_views user_uid) ;;
     let total_views := Py.or_zero summed in
     let total_earnings :=
       Py.float_mul (Py.int_truediv total_views 1000) cpm in
     meanwhile sha others ;;
     links <- execute_query conn (Sql.select_links user_uid) ;;
     close conn ;;
     ret (ModelResponse
            (UserStats.mk total_views (Py.round total_earnings 2) cpm 0 links)))
    (fun e => raise (HTTPException 500 "Error fetching user stats.")).

(** * Proofs *)

(** ** The storage layer *)

Lemma storage_call_healthy (w : World) :
  healthy w ->
  storage_call w = (Return tt, mkWorld (db w) (env w) (S (calls w)) (draws w)).
Proof.
  intros H. unfold storage_call. rewrite (H (calls w)). reflexivity.
Qed.

(** A storage call never touches the committed database. *)
Lemma storage_call_db (w : World) :
  db (snd (storage_call w)) = db w /\ env (snd (storage_call w)) = env w.
Proof.
  unfold storage_call. destruct (fault_at (env w) (calls w)); split; reflexivity.
Qed.

(** Unfold a handler down to the fault plan. *)
Ltac run_handler :=
  cbv beta iota zeta delta
    [bind ret raise try_except get_db_connection execute_query execute_dml
     commit close storage_call snapshot uuid4_hex time_now generate_slug];
  cbn [is_open txn db env calls draws fst snd].

(** Take the next storage call of a handler that runs on working storage. *)
Ltac storage_ok H :=
  match goal with
  | |- context [fault_at ?e ?n] => rewrite (H n); run_handler
  end.

(** ** Rows and slugs *)

Lemma slug_is_true (s : string) (r : Urls.Row) :
  Sql.slug_is s r = true <-> Urls.slug r = s.
Proof. unfold Sql.slug_is. apply String.eqb_eq. Qed.

Lemma slug_is_false (s : string) (r : Urls.Row) :
  Sql.slug_is s r = false <-> Urls.slug r <> s.
Proof. unfold Sql.slug_is. apply String.eqb_neq. Qed.

Lemma find_slug_none (s : string) (rows : list Urls.Row) :
  find (Sql.slug_is s) rows = None <-> ~ In s (map Urls.slug rows).
Proof.
  induction rows as [|r rows IH]; simpl.
  - tauto.
  - destruct (Sql.slug_is s r) eqn:E.
    + apply slug_is_true in E. split; [discriminate | intros H; elim H; auto].
    + apply slug_is_false in E. rewrite IH. tauto.
Qed.

(** Under the UNIQUE constraint a row is the one its slug finds. *)
Lemma find_slug_unique (before after : list Urls.Row) (row : Urls.Row) :
  NoDup (map Urls.slug (before ++ row :: after)) ->
  find (Sql.slug_is (Urls.slug row)) (before ++ row :: after) = Some row.
Proof.
  induction before as [|b before IH]; simpl; intros ND.
  - replace (Sql.slug_is (Urls.slug row) row) with true; [reflexivity|].
    symmetry. now apply slug_is_true.
  - inversion ND as [|x l Hnot ND']; subst.
    destruct (Sql.slug_is (Urls.slug row) b) eqn:E.
    + apply slug_is_true in E. exfalso. apply Hnot. rewrite E.
      rewrite map_app. apply in_or_app. right. simpl. auto.
    + now apply IH.
Qed.

Lemma bump_others (s : string) (rows : list Urls.Row) :
  ~ In s (map Urls.slug rows) ->
  map (fun r => if Sql.slug_is s r then Urls.bump r else r) rows = rows.
Proof.
  induction rows as [|r rows IH]; simpl; intros H; [reflexivity|].
  destruct (Sql.slug_is s r) eqn:E.
  - apply slug_is_true in E. exfalso. auto.
  - rewrite IH; [reflexivity | tauto].
Qed.

(** Under the UNIQUE constraint the UPDATE changes exactly one row. *)
Lemma update_views_unique (d : Database) (before after : list Urls.Row)
    (row : Urls.Row) :
  unique_slugs d ->
  urls d = before ++ row :: after ->
  Sql.update_views (Urls.slug row) d =
  mkDatabase (users d) (before ++ Urls.bump row :: after) (urls_seq d).
Proof.
  unfold unique_slugs, Sql.update_views. intros ND E. rewrite E in *.
  f_equal. rewrite map_app. simpl.
  rewrite map_app in ND. simpl in ND.
  replace (Sql.slug_is (Urls.slug row) row) with true
    by (symmetry; now apply slug_is_true).
  rewrite !bump_others; [reflexivity | |].
  - apply NoDup_remove_2 in ND. intros H. apply ND. apply in_or_app. now right.
  - apply NoDup_remove_2 in ND. intros H. apply ND. apply in_or_app. now left.
Qed.

(** ** Resolve *)

(** What Resolve does to a slug the store knows, when storage works. *)
Lemma get_final_link_found (w : World) (slug url : string) :
  healthy w ->
  Sql.select_original_url slug (db w) = Some url ->
  get_final_link slug w =
  (Return (RedirectResponse url 302),
   mkWorld (Sql.update_views slug (db w)) (env w) (4 + calls w) (draws w)).
Proof.
  intros H Hsel. unfold get_final_link. run_handler.
  do 2 storage_ok H. rewrite Hsel. run_handler. do 2 storage_ok H.
  reflexivity.
Qed.

(** What Resolve does to a slug the store does not know. *)
Lemma get_final_link_missing (w : World) (slug : string) :
  healthy w ->
  Sql.select_original_url slug (db w) = None ->
  get_final_link slug w =
  (Raise (HTTPException 404 "Original URL not found."),
   mkWorld (db w) (env w) (2 + calls w) (draws w)).
Proof.
  intros H Hsel. unfold get_final_link. run_handler.
  do 2 storage_ok H. rewrite Hsel. reflexivity.
Qed.

(** C1.  For a slug S stored (under the UNIQUE constraint on slugs) in a row
    with original_url U and view count V, and a storage layer that works,
    Resolve(S) returns a 302 redirect to U, and the committed database
    afterwards is the one before with that row's views set to V + 1: the
    users table, the AUTOINCREMENT sequence, every other row and every other
    field of the row are as before. *)
Theorem resolve_counts_one_view :
  forall (w : World) (S U : string) (V : Z)
         (before after : list Urls.Row) (row : Urls.Row),
    healthy w ->
    unique_slugs (db w) ->
    urls (db w) = before ++ row :: after ->
    Urls.slug row = S ->
    Urls.original_url row = U ->
    Urls.views row = V ->
    fst (get_final_link S w) = Return (RedirectResponse U 302) /\
    http_status (fst (get_final_link S w)) = 302 /\
    db (snd (get_final_link S w)) =
    mkDatabase (users (db w))
      (before ++
       Urls.mk (Urls.id row) S U (Urls.user_uid row) (V + 1)
         (Urls.created_at row) :: after)
      (urls_seq (db w)).
Proof.
  intros w S U V before after row H ND E HS HU HV.
  assert (Hsel : Sql.select_original_url S (db w) = Some U).
  { unfold Sql.select_original_url. rewrite E, <- HS.
    rewrite find_slug_unique; [simpl; now rewrite HU|].
    unfold unique_slugs in ND. now rewrite E in ND. }
  rewrite (get_final_link_found w S U H Hsel). simpl.
  repeat split.
  rewrite <- HS at 1. rewrite (update_views_unique (db w) before after row ND E).
  unfold Urls.bump. now rewrite HS, HU, HV.
Qed.

(** The spec's example: abc123 with 7 views is redirected and has 8. *)
Lemma resolve_counts_one_view_witness :
  fst (get_final_link "abc123" sample_world)
  = Return (RedirectResponse "https://example.com" 302) /\
  http_status (fst (get_final_link "abc123" sample_world)) = 302 /\
  db (snd (get_final_link "abc123" sample_world)) =
  mkDatabase []
    [Urls.mk 1 "abc123" "https://example.com" "u1" 8 1690000000] 1.
Proof.
  apply (resolve_counts_one_view sample_world "abc123" "https://example.com" 7
           [] [] sample_row).
  - intros n. reflexivity.
  - unfold unique_slugs. simpl. constructor; [simpl; tauto | constructor].
  - reflexivity.
  - reflexivity.
  - reflexivity.
  - reflexivity.
Defined.

(** Case analysis on the next storage call of a handler. *)
Ltac storage_any :=
  match goal with
  | |- context [fault_at ?e ?n] =>
      let F := fresh "Hfault" in
      destruct (fault_at e n) eqn:F; run_handler
  end.

Lemma select_original_url_none (slug : string) (d : Database) :
  ~ In slug (map Urls.slug (urls d)) ->
  Sql.select_original_url slug d = None.
Proof.
  intros H. unfold Sql.select_original_url.
  now rewrite (proj2 (find_slug_none slug (urls d)) H).
Qed.

Lemma select_original_url_some (slug : string) (d : Database) :
  In slug (map Urls.slug (urls d)) ->
  exists url, Sql.select_original_url slug d = Some url.
Proof.
  intros H. unfold Sql.select_original_url.
  destruct (find (Sql.slug_is slug) (urls d)) as [r|] eqn:E.
  - now exists (Urls.original_url r).
  - apply find_slug_none in E. contradiction.
Qed.

(** C2.  For a slug S that no row of the store has, Resolve(S) leaves the
    committed database as it was and never answers with a redirect,
    whatever the storage layer does; when storage works the result is the
    404 HTTPException. *)
Theorem resolve_unknown_not_found :
  forall (w : World) (S : string),
    ~ In S (map Urls.slug (urls (db w))) ->
    db (snd (get_final_link S w)) = db w /\
    (forall url code,
        fst (get_final_link S w) <> Return (RedirectResponse url code)) /\
    (healthy w ->
     fst (get_final_link S w) =
       Raise (HTTPException 404 "Original URL not found.") /\
     http_status (fst (get_final_link S w)) = 404).
Proof.
  intros w S Habsent.
  pose proof (select_original_url_none S (db w) Habsent) as Hsel.
  repeat split.
  - unfold get_final_link. run_handler.
    storage_any; [reflexivity|]. storage_any; [reflexivity|].
    rewrite Hsel. reflexivity.
  - intros url code. unfold get_final_link. run_handler.
    storage_any; [discriminate|]. storage_any; [discriminate|].
    rewrite Hsel. discriminate.
  - now rewrite (get_final_link_missing w S H Hsel).
  - now rewrite (get_final_link_missing w S H Hsel).
Qed.

(** Resolve of a slug the sample store does not have. *)
Lemma resolve_unknown_not_found_witness :
  db (snd (get_final_link "nosuch" sample_world)) = db sample_world /\
  (forall url code,
      fst (get_final_link "nosuch" sample_world)
      <> Return (RedirectResponse url code)) /\
  (healthy sample_world ->
   fst (get_final_link "nosuch" sample_world) =
     Raise (HTTPException 404 "Original URL not found.") /\
   http_status (fst (get_final_link "nosuch" sample_world)) = 404).
Proof.
  apply (resolve_unknown_not_found sample_world "nosuch").
  simpl. intros [H|H]; [discriminate H | exact H].
Defined.

(** ** Enter and Advance *)

Lemma append_assoc (a b c : string) :
  ((a ++ b) ++ c)%string = (a ++ b ++ c)%string.
Proof.
  induction a as [|x a IH]; simpl; [reflexivity | now rewrite IH].
Qed.

Lemma ad_page_1_embeds_base_url (base_url slug : string) :
  embeds base_url (ad_page_1_html base_url slug).
Proof.
  exists page1_head, (page1_mid ++ slug ++ page1_tail)%string. reflexivity.
Qed.

Lemma ad_page_1_embeds_slug (base_url slug : string) :
  embeds slug (ad_page_1_html base_url slug).
Proof.
  exists (page1_head ++ base_url ++ page1_mid)%string, page1_tail.
  unfold ad_page_1_html. now rewrite !append_assoc.
Qed.

Lemma ad_page_2_embeds_slug (slug : string) :
  embeds slug (ad_page_2_html slug).
Proof.
  exists page2_head, (page2_mid ++ slug ++ page2_tail)%string. reflexivity.
Qed.

Lemma append_nil_r (s : string) : (s ++ "")%string = s.
Proof. induction s as [|c s IH]; simpl; [reflexivity | now rewrite IH]. Qed.

Lemma strip_prefix_spec (p s rest : string) :
  strip_prefix p s = Some rest -> s = (p ++ rest)%string.
Proof.
  revert s. induction p as [|a p IH]; intros s H; simpl in H.
  - now injection H as ->.
  - destruct s as [|b s]; [discriminate|].
    destruct (Ascii.eqb_spec a b) as [->|]; [|discriminate].
    simpl. f_equal. now apply IH.
Qed.

Lemma split_at_spec (needle s before after : string) :
  split_at needle s = Some (before, after) ->
  s = (before ++ needle ++ after)%string.
Proof.
  revert before. induction s as [|c s IH]; intros before H.
  - simpl in H. destruct (strip_prefix needle "") as [rest|] eqn:E;
      [|discriminate].
    injection H as <- <-. exact (strip_prefix_spec _ _ _ E).
  - cbn [split_at] in H.
    destruct (strip_prefix needle (String c s)) as [rest|] eqn:E.
    + injection H as <- <-. exact (strip_prefix_spec _ _ _ E).
    + destruct (split_at needle s) as [[b a]|]; [|discriminate].
      injection H as <- <-. simpl. f_equal. now apply IH.
Qed.

(** The literal text around the holes of the Stage-1 template. *)
Lemma page1_around_base_url :
  (exists h0, page1_head = (h0 ++ "const baseUrl = " ++ dq)%string) /\
  (exists m1, page1_mid = ((dq ++ ";") ++ m1)%string).
Proof.
  split.
  - pose proof (split_at_spec ("const baseUrl = " ++ dq) page1_head) as H.
    destruct (split_at ("const baseUrl = " ++ dq) page1_head) as [[h0 rest]|] eqn:E;
      [|vm_compute in E; discriminate E].
    assert (rest = EmptyString)
      by (vm_compute in E; injection E as _ <-; reflexivity).
    subst rest. exists h0. rewrite (H h0 "" eq_refl).
    now rewrite append_assoc, append_nil_r.
  - pose proof (strip_prefix_spec (dq ++ ";") page1_mid) as H.
    destruct (strip_prefix (dq ++ ";") page1_mid) as [m1|] eqn:E;
      [|vm_compute in E; discriminate E].
    exists m1. now apply H.
Qed.

Lemma page1_around_slug :
  (exists m0,
      page1_mid = (m0 ++ "iframe.src = `${baseUrl}/ad_page2_content/")%string) /\
  (exists t1, page1_tail = ("`;" ++ t1)%string).
Proof.
  split.
  - pose proof (split_at_spec "iframe.src = `${baseUrl}/ad_page2_content/"
                  page1_mid) as H.
    destruct (split_at "iframe.src = `${baseUrl}/ad_page2_content/" page1_mid)
      as [[m0 rest]|] eqn:E; [|vm_compute in E; discriminate E].
    assert (rest = EmptyString)
      by (vm_compute in E; injection E as _ <-; reflexivity).
    subst rest. exists m0. rewrite (H m0 "" eq_refl). now rewrite append_nil_r.
  - pose proof (strip_prefix_spec "`;" page1_tail) as H.
    destruct (strip_prefix "`;" page1_tail) as [t1|] eqn:E;
      [|vm_compute in E; discriminate E].
    exists t1. now apply H.
Qed.

Lemma page1_redirect_listener :
  embeds "window.location.href = `${baseUrl}/go_to_original/${event.data.slug}`;"
    page1_mid.
Proof.
  pose proof (split_at_spec
                "window.location.href = `${baseUrl}/go_to_original/${event.data.slug}`;"
                page1_mid) as H.
  destruct (split_at
              "window.location.href = `${baseUrl}/go_to_original/${event.data.slug}`;"
              page1_mid) as [[a b]|] eqn:E; [|vm_compute in E; discriminate E].
  exists a, b. now apply H.
Qed.

Lemma page2_around_slugs :
  (exists h0, page2_head = (h0 ++ "const slug = " ++ dq)%string) /\
  (exists m1,
      page2_mid =
      ((dq ++ ";") ++ m1 ++
       "window.parent.postMessage({
                action: 'redirect',
                slug: " ++ dq)%string) /\
  (exists t1, page2_tail = (dq ++ t1)%string).
Proof.
  split; [|split].
  - pose proof (split_at_spec ("const slug = " ++ dq) page2_head) as H.
    destruct (split_at ("const slug = " ++ dq) page2_head) as [[h0 rest]|] eqn:E;
      [|vm_compute in E; discriminate E].
    assert (rest = EmptyString)
      by (vm_compute in E; injection E as _ <-; reflexivity).
    subst rest. exists h0. rewrite (H h0 "" eq_refl).
    now rewrite append_assoc, append_nil_r.
  - pose proof (strip_prefix_spec (dq ++ ";") page2_mid) as Hp.
    destruct (strip_prefix (dq ++ ";") page2_mid) as [after|] eqn:E;
      [|vm_compute in E; discriminate E].
    pose proof (split_at_spec
                  ("window.parent.postMessage({
                action: 'redirect',
                slug: " ++ dq) after) as Hs.
    destruct (split_at
                ("window.parent.postMessage({
                action: 'redirect',
                slug: " ++ dq) after) as [[m1 rest]|] eqn:E';
      [|vm_compute in E, E'; injection E as <-; vm_compute in E';
        discriminate E'].
    assert (rest = EmptyString).
    { vm_compute in E. injection E as <-. vm_compute in E'.
      injection E' as _ <-. reflexivity. }
    subst rest. exists m1.
    rewrite (Hp after eq_refl), (Hs m1 "" eq_refl).
    now rewrite !append_assoc, append_nil_r.
  - pose proof (strip_prefix_spec dq page2_tail) as H.
    destruct (strip_prefix dq page2_tail) as [t1|] eqn:E;
      [|vm_compute in E; discriminate E].
    exists t1. now apply H.
Qed.

Lemma found_embeds (needle s : string) :
  match split_at needle s with Some _ => true | None => false end = true ->
  embeds needle s.
Proof.
  destruct (split_at needle s) as [[before after]|] eqn:E; [|discriminate].
  intros _. exists before, after. now apply split_at_spec.
Qed.

Lemma embeds_prefix (x a r : string) : embeds x a -> embeds x (a ++ r)%string.
Proof.
  intros (before & after & ->). exists before, (after ++ r)%string.
  now rewrite !append_assoc.
Qed.

Lemma embeds_suffix (x a r : string) : embeds x r -> embeds x (a ++ r)%string.
Proof.
  intros (before & after & ->). exists (a ++ before)%string, after.
  now rewrite !append_assoc.
Qed.

(** The Stage-1 template holds what a Stage-1 page must hold. *)
Lemma ad_page_1_is_stage_1 (base_url slug : string) :
  is_stage_1_page base_url slug (ad_page_1_html base_url slug).
Proof.
  unfold is_stage_1_page, ad_page_1_html.
  destruct page1_around_base_url as [[h0 Hh] [m1 Hm1]].
  destruct page1_around_slug as [[m0 Hm0] [t1 Ht]].
  repeat split.
  - apply embeds_prefix, found_embeds. vm_compute. reflexivity.
  - apply embeds_prefix, found_embeds. vm_compute. reflexivity.
  - apply embeds_prefix, found_embeds. vm_compute. reflexivity.
  - apply embeds_prefix, found_embeds. vm_compute. reflexivity.
  - apply embeds_suffix, embeds_suffix, embeds_prefix, found_embeds.
    vm_compute. reflexivity.
  - exists h0, (m1 ++ slug ++ page1_tail)%string.
    rewrite Hh, Hm1. now rewrite !append_assoc.
  - exists (page1_head ++ base_url ++ m0)%string, t1.
    rewrite Hm0, Ht. now rewrite !append_assoc.
  - apply embeds_suffix, embeds_suffix, embeds_prefix.
    apply page1_redirect_listener.
Qed.

(** The Stage-2 template holds what a Stage-2 page must hold. *)
Lemma ad_page_2_is_stage_2 (slug : string) :
  is_stage_2_page slug (ad_page_2_html slug).
Proof.
  unfold is_stage_2_page, ad_page_2_html.
  destruct page2_around_slugs as ([h0 Hh] & [m1 Hm] & [t1 Ht]).
  repeat split.
  - apply embeds_prefix, found_embeds. vm_compute. reflexivity.
  - apply embeds_prefix, found_embeds. vm_compute. reflexivity.
  - apply embeds_prefix, found_embeds. vm_compute. reflexivity.
  - apply embeds_suffix, embeds_suffix, embeds_prefix, found_embeds.
    vm_compute. reflexivity.
  - apply embeds_suffix, embeds_suffix, embeds_prefix, found_embeds.
    vm_compute. reflexivity.
  - exists h0,
      (m1 ++ "window.parent.postMessage({
                action: 'redirect',
                slug: " ++ dq ++ slug ++ page2_tail)%string.
    rewrite Hh, Hm. now rewrite !append_assoc.
  - exists (page2_head ++ slug ++ (dq ++ ";") ++ m1)%string, t1.
    rewrite Hm, Ht. now rewrite !append_assoc.
Qed.

(** C5.  Enter(S) on a slug no row has never returns a page, whatever the
    storage layer does, and with working storage raises the 404
    HTTPException; on a stored slug, with working storage, it returns the
    Stage-1 page (status 200) built from the request's base URL (trailing
    slashes stripped) and the slug, both of which occur in the page, and
    the page is Stage-1 content: title, countdown from 5, disabled "Get
    Link" button that the timer enables, the base URL constant, the frame
    for /ad_page2_content/<slug>, and the listener for /go_to_original. *)
Theorem enter_unknown_404_known_page :
  forall (w : World) (S : string) (request : HttpRequest.t),
    (~ In S (map Urls.slug (urls (db w))) ->
     (forall page,
         fst (serve_ad_page_1 S request w) <> Return (HTMLResponse page)) /\
     (healthy w ->
      fst (serve_ad_page_1 S request w) =
        Raise (HTTPException 404 "Slug not found.") /\
      http_status (fst (serve_ad_page_1 S request w)) = 404)) /\
    (In S (map Urls.slug (urls (db w))) ->
     healthy w ->
     let base_url := Py.rstrip_slash (HttpRequest.base_url request) in
     let page := ad_page_1_html base_url S in
     fst (serve_ad_page_1 S request w) = Return (HTMLResponse page) /\
     http_status (fst (serve_ad_page_1 S request w)) = 200 /\
     embeds base_url page /\
     embeds S page /\
     is_stage_1_page base_url S page).
Proof.
  intros w S request. split.
  - intros Habsent.
    pose proof (select_original_url_none S (db w) Habsent) as Hsel.
    split.
    + intros page. unfold serve_ad_page_1. run_handler.
      storage_any; [discriminate|]. storage_any; [discriminate|].
      rewrite Hsel. discriminate.
    + intros H. unfold serve_ad_page_1. run_handler.
      do 2 storage_ok H. rewrite Hsel. split; reflexivity.
  - intros Hpresent H base_url page.
    destruct (select_original_url_some S (db w) Hpresent) as [url Hsel].
    assert (E : fst (serve_ad_page_1 S request w) = Return (HTMLResponse page)).
    { unfold serve_ad_page_1. run_handler.
      do 2 storage_ok H. rewrite Hsel. reflexivity. }
    rewrite E. split; [reflexivity|]. split; [reflexivity|].
    split; [apply ad_page_1_embeds_base_url|].
    split; [apply ad_page_1_embeds_slug | apply ad_page_1_is_stage_1].
Qed.

(** C6.  Advance(S) returns the Stage-2 page (status 200) for every string
    S and every world: it makes no storage call, so no fault plan can make
    it fail, it changes nothing, and its answer does not depend on the
    store.  The page is Stage-2 content: title, its own countdown from 5,
    disabled "Get Final Link" button that its timer enables, the slug
    constant, and the redirect message with the slug for the parent. *)
Theorem advance_always_renders :
  forall (S : string) (w : World),
    serve_ad_page_2_content S w = (Return (HTMLResponse (ad_page_2_html S)), w) /\
    http_status (fst (serve_ad_page_2_content S w)) = 200 /\
    calls (snd (serve_ad_page_2_content S w)) = calls w /\
    embeds S (ad_page_2_html S) /\
    (forall w', fst (serve_ad_page_2_content S w')
                = fst (serve_ad_page_2_content S w)) /\
    (exists page,
        fst (serve_ad_page_2_content S w) = Return (HTMLResponse page) /\
        is_stage_2_page S page).
Proof.
  intros S w.
  split; [reflexivity|]. split; [reflexivity|]. split; [reflexivity|].
  split; [apply ad_page_2_embeds_slug|]. split; [reflexivity|].
  exists (ad_page_2_html S). split; [reflexivity | apply ad_page_2_is_stage_2].
Qed.

(** ** shorten_url *)

(** C7.  When the store already has a link for (U, owner) and storage
    works, shorten_url for (U, owner) answers 200 with the slug of an
    existing link for that pair (the first one in the table) and the message
    that the URL is already shortened, and the committed database is
    unchanged: no row is inserted. *)
Theorem shorten_url_existing_pair :
  forall (w : World) (link : UrlShorten.t) (row : Urls.Row),
    healthy w ->
    In row (urls (db w)) ->
    Urls.original_url row = UrlShorten.url link ->
    Urls.user_uid row = UrlShorten.user_uid link ->
    exists existing,
      In existing (urls (db w)) /\
      Urls.original_url existing = UrlShorten.url link /\
      Urls.user_uid existing = UrlShorten.user_uid link /\
      fst (shorten_url link w) =
        Return (JSONResponse 200
                  [("success", JBool true);
                   ("slug", JStr (Urls.slug existing));
                   ("message", JStr "URL already shortened.")]) /\
      db (snd (shorten_url link w)) = db w.
Proof.
  intros w link row H Hin Hurl Howner.
  set (p := fun r : Urls.Row =>
              String.eqb (Urls.original_url r) (UrlShorten.url link)
              && Sql.owner_is (UrlShorten.user_uid link) r).
  destruct (find p (urls (db w))) as [existing|] eqn:E.
  - destruct (find_some _ _ E) as [Hin' Hp]. unfold p in Hp.
    apply andb_true_iff in Hp. destruct Hp as [Hu Ho].
    apply String.eqb_eq in Hu. apply String.eqb_eq in Ho.
    exists existing. repeat split; try assumption.
    + unfold shorten_url. run_handler. do 2 storage_ok H.
      unfold Sql.select_slug. fold p. rewrite E. reflexivity.
    + unfold shorten_url. run_handler. do 2 storage_ok H.
      unfold Sql.select_slug. fold p. rewrite E. reflexivity.
  - exfalso. pose proof (find_none _ _ E row Hin) as Hp. unfold p in Hp.
    unfold Sql.owner_is in Hp. rewrite Hurl, Howner, !String.eqb_refl in Hp.
    discriminate.
Qed.

(** shorten_url for the pair the sample store already has. *)
Lemma shorten_url_existing_pair_witness :
  exists existing,
    In existing (urls (db sample_world)) /\
    Urls.original_url existing = "https://example.com" /\
    Urls.user_uid existing = "u1" /\
    fst (shorten_url (UrlShorten.mk "https://example.com" "u1") sample_world) =
      Return (JSONResponse 200
                [("success", JBool true);
                 ("slug", JStr (Urls.slug existing));
                 ("message", JStr "URL already shortened.")]) /\
    db (snd (shorten_url (UrlShorten.mk "https://example.com" "u1") sample_world))
    = db sample_world.
Proof.
  apply (shorten_url_existing_pair sample_world
           (UrlShorten.mk "https://example.com" "u1") sample_row).
  - intros n. reflexivity.
  - simpl. left. reflexivity.
  - reflexivity.
  - reflexivity.
Defined.

(** A first shorten_url on working storage, for a pair the store does not
    have and a fresh slug, creates the link with no views. *)
Lemma shorten_url_creates (w : World) (link : UrlShorten.t) :
  healthy w ->
  Sql.select_slug (UrlShorten.url link) (UrlShorten.user_uid link) (db w) = None ->
  let slug := substring 0 7 (uuid_at (env w) (draws w)) in
  existsb (Sql.slug_is slug) (urls (db w)) = false ->
  fst (shorten_url link w) =
    Return (JSONResponse 200 [("success", JBool true); ("slug", JStr slug)]) /\
  db (snd (shorten_url link w)) =
    mkDatabase (users (db w))
      (urls (db w) ++
       [Urls.mk (Sql.next_id (db w)) slug (UrlShorten.url link)
          (UrlShorten.user_uid link) 0 (now (env w))])
      (Sql.next_id (db w)).
Proof.
  intros H Hsel slug Hfresh. unfold shorten_url. run_handler.
  do 2 storage_ok H. rewrite Hsel. run_handler. storage_ok H.
  unfold Sql.insert_url. fold slug. rewrite Hfresh. run_handler.
  storage_ok H. split; reflexivity.
Qed.

Lemma find_app_none {A} (p : A -> bool) (l l' : list A) :
  find p l = None -> find p (l ++ l') = find p l'.
Proof.
  induction l as [|x l IH]; simpl; [reflexivity|].
  destruct (p x); [discriminate | exact IH].
Qed.

(** The created link is the one a repeated request finds. *)
Lemma shorten_url_twice (w w' : World) (link : UrlShorten.t) :
  healthy w ->
  Sql.select_slug (UrlShorten.url link) (UrlShorten.user_uid link) (db w) = None ->
  let slug := substring 0 7 (uuid_at (env w) (draws w)) in
  existsb (Sql.slug_is slug) (urls (db w)) = false ->
  healthy w' ->
  db w' = db (snd (shorten_url link w)) ->
  fst (shorten_url link w') =
    Return (JSONResponse 200
              [("success", JBool true);
               ("slug", JStr slug);
               ("message", JStr "URL already shortened.")]) /\
  db (snd (shorten_url link w')) = db w'.
Proof.
  intros H Hsel slug Hfresh H' Hdb.
  destruct (shorten_url_creates w link H Hsel Hfresh) as [_ Hd].
  fold slug in Hd. rewrite Hd in Hdb.
  assert (Hsel' : Sql.select_slug (UrlShorten.url link)
                    (UrlShorten.user_uid link) (db w') = Some slug).
  { unfold Sql.select_slug in *. rewrite Hdb. simpl.
    destruct (find _ (urls (db w))) as [r|] eqn:E; [discriminate|].
    rewrite (find_app_none _ _ _ E). simpl. unfold Sql.owner_is. simpl.
    now rewrite !String.eqb_refl. }
  unfold shorten_url. run_handler. do 2 storage_ok H'.
  rewrite Hsel'. split; reflexivity.
Qed.

(** ** Storage failures *)

(** Split on everything the run of a handler branches on. *)
Ltac run_cases :=
  run_handler;
  repeat (match goal with
          | |- context [fault_at ?e ?n] =>
              let F := fresh "Hfault" in destruct (fault_at e n) eqn:F
          | |- context [Sql.select_user_by_name_or_email ?u ?m ?d] =>
              destruct (Sql.select_user_by_name_or_email u m d) eqn:?
          | |- context [Sql.select_user_by_name ?u ?d] =>
              destruct (Sql.select_user_by_name u d) eqn:?
          | |- context [Sql.select_slug ?u ?o ?d] =>
              destruct (Sql.select_slug u o d) eqn:?
          | |- context [Sql.select_original_url ?s ?d] =>
              destruct (Sql.select_original_url s d) eqn:?
          | |- context [Sql.insert_user ?r ?d] =>
              destruct (Sql.insert_user r d) eqn:?
          | |- context [Sql.insert_url ?s ?u ?o ?t ?d] =>
              destruct (Sql.insert_url s u o t d) eqn:?
          | |- context [String.eqb ?a ?b] => destruct (String.eqb a b) eqn:?
          end; run_handler; cbn [negb]).

(** Close a goal [storage_raised w w' e -> ...] once the run is known: the
    raising call is one of the calls made. *)
Ltac raised_call :=
  let n := fresh "n" in
  let Hr := fresh "Hr" in
  let Hf := fresh "Hf" in
  intros (n & Hr & Hf); cbn [calls snd fst] in Hr;
  try reflexivity;
  repeat match goal with
         | Hk : fault_at _ ?k = _ |- _ =>
             destruct (Nat.eq_dec n k); [subst n; congruence | clear Hk]
         end;
  lia.

Lemma register_catches (sha : string -> string) (user : UserRegister.t)
    (w : World) (e : SqlError) :
  storage_raised w (snd (register_user_data sha user w)) e ->
  fst (register_user_data sha user w) =
  Return (JSONResponse 500
            [("success", JBool false);
             ("message", JStr "An unexpected error occurred.")]).
Proof. unfold register_user_data. run_cases; raised_call. Qed.

Lemma login_catches (sha : string -> string) (user : UserLogin.t)
    (w : World) (e : SqlError) :
  storage_raised w (snd (login_user_data sha user w)) e ->
  fst (login_user_data sha user w) =
  Return (JSONResponse 500
            [("success", JBool false);
             ("message", JStr "An unexpected error occurred.")]).
Proof. unfold login_user_data. run_cases; raised_call. Qed.

Lemma shorten_catches (link : UrlShorten.t) (w : World) (e : SqlError) :
  storage_raised w (snd (shorten_url link w)) e ->
  fst (shorten_url link w) =
  Return (JSONResponse 500
            [("success", JBool false);
             ("message", JStr "URL shortening failed.")]).
Proof. unfold shorten_url. run_cases; raised_call. Qed.

Lemma enter_propagates (slug : string) (request : HttpRequest.t)
    (w : World) (e : SqlError) :
  storage_raised w (snd (serve_ad_page_1 slug request w)) e ->
  fst (serve_ad_page_1 slug request w) = Raise (Sqlite e).
Proof. unfold serve_ad_page_1. run_cases; raised_call. Qed.

Lemma resolve_propagates (slug : string) (w : World) (e : SqlError) :
  storage_raised w (snd (get_final_link slug w)) e ->
  fst (get_final_link slug w) = Raise (Sqlite e).
Proof. unfold get_final_link. run_cases; raised_call. Qed.

(** The three sibling endpoints never let an exception out. *)
Lemma siblings_never_raise (sha : string -> string) (w : World) :
  (forall user, exists r, fst (register_user_data sha user w) = Return r) /\
  (forall user, exists r, fst (login_user_data sha user w) = Return r) /\
  (forall link, exists r, fst (shorten_url link w) = Return r).
Proof.
  repeat split; intros x.
  - unfold register_user_data. run_cases; eexists; reflexivity.
  - unfold login_user_data. run_cases; eexists; reflexivity.
  - unfold shorten_url. run_cases; eexists; reflexivity.
Qed.

(** C9.  When a storage call made by the request raises the error [e]:
    register_user_data, login_user_data and shorten_url return their
    generic 500 JSON message, while serve_ad_page_1 (Enter) and
    get_final_link (Resolve) end with the storage exception itself. *)
Theorem storage_errors_caught_or_propagated :
  forall (sha : string -> string) (w : World) (e : SqlError),
    (forall user,
        storage_raised w (snd (register_user_data sha user w)) e ->
        fst (register_user_data sha user w) =
        Return (JSONResponse 500
                  [("success", JBool false);
                   ("message", JStr "An unexpected error occurred.")])) /\
    (forall user,
        storage_raised w (snd (login_user_data sha user w)) e ->
        fst (login_user_data sha user w) =
        Return (JSONResponse 500
                  [("success", JBool false);
                   ("message", JStr "An unexpected error occurred.")])) /\
    (forall link,
        storage_raised w (snd (shorten_url link w)) e ->
        fst (shorten_url link w) =
        Return (JSONResponse 500
                  [("success", JBool false);
                   ("message", JStr "URL shortening failed.")])) /\
    (forall slug request,
        storage_raised w (snd (serve_ad_page_1 slug request w)) e ->
        fst (serve_ad_page_1 slug request w) = Raise (Sqlite e)) /\
    (forall slug,
        storage_raised w (snd (get_final_link slug w)) e ->
        fst (get_final_link slug w) = Raise (Sqlite e)).
Proof.
  intros sha w e. repeat split; intros.
  - now apply (register_catches sha user w e).
  - now apply (login_catches sha user w e).
  - now apply (shorten_catches link w e).
  - now apply (enter_propagates slug request w e).
  - now apply (resolve_propagates slug w e).
Qed.

(** ** user_stats *)

(** The coalesced SUM(views) is the sum of the owner's views. *)
Lemma or_zero_sum_views (user_uid : string) (d : Database) :
  Py.or_zero (Sql.select_sum_views user_uid d) = owned_views user_uid d.
Proof.
  unfold Sql.select_sum_views, owned_views.
  destruct (filter (Sql.owner_is user_uid) (urls d)) as [|r rows]; [reflexivity|].
  unfold Py.or_zero.
  destruct (Z.eqb_spec (fold_right Z.add 0 (map Urls.views (r :: rows))) 0) as [E|E];
    [now rewrite E | reflexivity].
Qed.

Lemma get_user_stats_healthy (w : World) (user_uid : string) :
  healthy w ->
  get_user_stats user_uid w =
  (let total_views := owned_views user_uid (db w) in
   Return (ModelResponse
             (UserStats.mk total_views
                (Py.round (Py.float_mul (Py.int_truediv total_views 1000) cpm) 2)
                cpm 0 (Sql.select_links user_uid (db w)))),
   mkWorld (db w) (env w) (3 + calls w) (draws w)).
Proof.
  intros H. unfold get_user_stats. run_handler. do 3 storage_ok H.
  now rewrite or_zero_sum_views.
Qed.

(** user_stats only reads. *)
Lemma get_user_stats_reads (w : World) (user_uid : string) :
  db (snd (get_user_stats user_uid w)) = db w.
Proof.
  unfold get_user_stats. run_handler. repeat (storage_any; [reflexivity|]).
  reflexivity.
Qed.

(** ** The float computation against exact arithmetic *)

Lemma all_below_spec (f : Z -> bool) (n : nat) :
  all_below f n = true ->
  forall v, 0 <= v < Z.of_nat n -> f v = true.
Proof.
  induction n as [|n IH]; intros H v Hv; [lia|].
  cbn [all_below] in H. apply andb_true_iff in H. destruct H as [Hn Hrest].
  destruct (Z.eq_dec v (Z.of_nat n)) as [->|Hne]; [assumption|].
  apply IH; [assumption | lia].
Qed.

Lemma float_eqb_eq (x y : spec_float) : float_eqb x y = true -> x = y.
Proof.
  destruct x, y; simpl; try discriminate; intros H.
  - apply Bool.eqb_prop in H. now subst.
  - apply Bool.eqb_prop in H. now subst.
  - reflexivity.
  - apply andb_true_iff in H. destruct H as [H He].
    apply andb_true_iff in H. destruct H as [Hs Hm].
    apply Bool.eqb_prop in Hs. apply Pos.eqb_eq in Hm. apply Z.eqb_eq in He.
    now subst.
Qed.

(** Up to 10000 views the float computation of the earnings gives exactly
    the float nearest to the earnings rounded in exact arithmetic. *)
Lemma earnings_exact_below_10000 (total_views : Z) :
  0 <= total_views < 10000 ->
  earnings total_views = earnings_exact total_views.
Proof.
  intros H. apply float_eqb_eq.
  apply (all_below_spec
           (fun v => float_eqb (earnings v) (earnings_exact v))
           (Z.to_nat 10000));
    [vm_compute; reflexivity | lia].
Qed.

(** ** round(x, 2) as rounding to hundredths *)

Lemma div_half_even_nearest (n d : Z) :
  0 <= n -> 0 < d ->
  0 <= Py.div_half_even n d /\
  Z.abs (2 * (n - Py.div_half_even n d * d)) <= d /\
  (Z.abs (2 * (n - Py.div_half_even n d * d)) = d ->
   Z.even (Py.div_half_even n d) = true).
Proof.
  intros Hn Hd. unfold Py.div_half_even.
  pose proof (Z.div_mod n d ltac:(lia)) as Hdiv.
  pose proof (Z.mod_pos_bound n d Hd) as Hmod.
  pose proof (Z.div_pos n d Hn Hd) as Hq.
  set (q := n / d) in *. set (r := n mod d) in *.
  destruct (Z.compare_spec (2 * r) d) as [Heq|Hlt|Hgt].
  - destruct (Z.even q) eqn:Hev.
    + repeat split; [lia | lia | auto].
    + repeat split; [lia | lia |].
      intros _. replace (q + 1) with (Z.succ q) by lia.
      rewrite Z.even_succ, <- Z.negb_even, Hev. reflexivity.
  - repeat split; [lia | lia | lia].
  - repeat split; [lia | lia | lia].
Qed.

(** Python's round(x, 2) rounds to hundredths, half to even. *)
Lemma py_round_hundredths (x : spec_float) :
  rounded_to_hundredths x (Py.round x 2).
Proof.
  destruct x as [s|s| |s m e]; cbn [rounded_to_hundredths Py.round].
  - exists 0. split; reflexivity.
  - reflexivity.
  - reflexivity.
  - change (10 ^ 2) with 100. cbn [nearest_hundredths is_negative].
    unfold float_of_hundredths. destruct (0 <=? e) eqn:He.
    + exists (Zpos m * 2 ^ e * 100). split; [|reflexivity].
      apply Z.leb_le in He.
      pose proof (Z.pow_nonneg 2 e ltac:(lia)) as Hpow.
      assert (0 <= Zpos m * 2 ^ e * 100) by nia.
      set (h := Zpos m * 2 ^ e * 100) in *. repeat split; lia.
    + exists (Py.div_half_even (Zpos m * 100) (2 ^ (- e))).
      split; [|reflexivity].
      apply Z.leb_gt in He.
      apply div_half_even_nearest; [lia|].
      apply Z.pow_pos_nonneg; lia.
Qed.

(** C8.  user_stats changes nothing in the database, whatever the storage
    layer does; with working storage it returns total_views = the sum of
    the views of the user's links, cpm_rate = 4.00, and total_earnings =
    round((total_views / 1000) * 4.00, 2) in Python's float arithmetic:
    the float nearest to the two-decimal value nearest (half to even) to
    the float product.  For total_views = 2500 that is exactly the float
    10.0; for 1234 (4.936 before rounding) it is the float nearest to
    4.94; below 10000 views it is the float nearest to total_views * 4 /
    1000 rounded to two decimals in exact arithmetic. *)
Theorem user_stats_earnings :
  forall (w : World) (user_uid : string),
    db (snd (get_user_stats user_uid w)) = db w /\
    (healthy w ->
     exists stats,
       fst (get_user_stats user_uid w) = Return (ModelResponse stats) /\
       UserStats.total_views stats = owned_views user_uid (db w) /\
       UserStats.cpm_rate stats = Py.float_of_int 4 /\
       UserStats.total_earnings stats =
         Py.round
           (Py.float_mul
              (Py.int_truediv (owned_views user_uid (db w)) 1000)
              (Py.float_of_int 4))
           2 /\
       (owned_views user_uid (db w) = 2500 ->
        UserStats.total_earnings stats = Py.float_of_int 10) /\
       rounded_to_hundredths
         (Py.float_mul
            (Py.int_truediv (owned_views user_uid (db w)) 1000)
            (Py.float_of_int 4))
         (UserStats.total_earnings stats) /\
       (owned_views user_uid (db w) = 1234 ->
        UserStats.total_earnings stats = float_of_hundredths false 494) /\
       (0 <= owned_views user_uid (db w) < 10000 ->
        UserStats.total_earnings stats =
        earnings_exact (owned_views user_uid (db w)))).
Proof.
  intros w user_uid. split; [apply get_user_stats_reads|].
  intros H. rewrite (get_user_stats_healthy w user_uid H).
  eexists. split; [reflexivity|]. cbn [UserStats.total_views
    UserStats.cpm_rate UserStats.total_earnings].
  split; [reflexivity|]. split; [reflexivity|]. split; [reflexivity|].
  split; [intros E; rewrite E; vm_compute; reflexivity|].
  split; [apply py_round_hundredths|].
  split; [intros E; rewrite E; vm_compute; reflexivity|].
  intros Hsmall. now apply earnings_exact_below_10000.
Qed.

(** C10.  For a user who owns no link, SUM(views) is NULL, and user_stats
    (on working storage) still answers 200 with total_views = 0,
    total_earnings = 0.0 and an empty list of links. *)
Theorem user_stats_no_links :
  forall (w : World) (user_uid : string),
    healthy w ->
    (forall r, In r (urls (db w)) -> Urls.user_uid r <> user_uid) ->
    Sql.select_sum_views user_uid (db w) = None /\
    fst (get_user_stats user_uid w) =
      Return (ModelResponse
                (UserStats.mk 0 (S754_zero false) (Py.float_of_int 4) 0 [])) /\
    http_status (fst (get_user_stats user_uid w)) = 200.
Proof.
  intros w user_uid H Hnone.
  assert (E : filter (Sql.owner_is user_uid) (urls (db w)) = []).
  { induction (urls (db w)) as [|r rows IH]; [reflexivity|]. simpl.
    destruct (Sql.owner_is user_uid r) eqn:Eo.
    - apply String.eqb_eq in Eo. exfalso. apply (Hnone r); simpl; auto.
    - apply IH. intros r' Hin. apply Hnone. simpl. auto. }
  split; [unfold Sql.select_sum_views; now rewrite E|].
  rewrite (get_user_stats_healthy w user_uid H).
  unfold owned_views, Sql.select_links. rewrite E. split; reflexivity.
Qed.

(** ** The view counter over a sequence of requests *)

Lemma row_grows_refl (r : Urls.Row) : row_grows r r.
Proof. unfold row_grows. repeat split; lia. Qed.

Lemma row_grows_trans (a b c : Urls.Row) :
  row_grows a b -> row_grows b c -> row_grows a c.
Proof. unfold row_grows. intuition (try congruence; lia). Qed.

Lemma row_grows_bump (r : Urls.Row) : row_grows r (Urls.bump r).
Proof. unfold row_grows, Urls.bump. simpl. repeat split; lia. Qed.

Lemma rows_grow_refl (rows : list Urls.Row) : Forall2 row_grows rows rows.
Proof. induction rows; constructor; auto using row_grows_refl. Qed.

Lemma rows_grow_trans (a b c : list Urls.Row) :
  Forall2 row_grows a b -> Forall2 row_grows b c -> Forall2 row_grows a c.
Proof.
  intros Hab. revert c. induction Hab as [|x y a b Hxy Hab IH]; intros c Hbc.
  - inversion Hbc. constructor.
  - inversion Hbc as [|y' z b' c' Hyz Hbc']; subst. constructor.
    + eapply row_grows_trans; eauto.
    + now apply IH.
Qed.

Lemma rows_grow_non_negative (a b : list Urls.Row) :
  Forall2 row_grows a b ->
  Forall (fun r => 0 <= Urls.views r) a ->
  Forall (fun r => 0 <= Urls.views r) b.
Proof.
  induction 1 as [|x y a b Hxy Hab IH]; intros Ha; [constructor|].
  inversion Ha; subst. constructor; [|now apply IH].
  unfold row_grows in Hxy. lia.
Qed.

Lemma rows_grow_nth (a b : list Urls.Row) (k : nat) (row : Urls.Row) :
  Forall2 row_grows a b ->
  nth_error a k = Some row ->
  exists row', nth_error b k = Some row' /\ row_grows row row'.
Proof.
  intros Hab. revert k. induction Hab as [|x y a b Hxy Hab IH]; intros k Hk.
  - destruct k; discriminate.
  - destruct k as [|k]; simpl in *.
    + injection Hk as <-. eauto.
    + now apply IH.
Qed.

Lemma table_grows_refl (rows : list Urls.Row) : table_grows rows rows.
Proof.
  exists rows, []. rewrite app_nil_r. auto using rows_grow_refl.
Qed.

Lemma table_grows_trans (a b c : list Urls.Row) :
  table_grows a b -> table_grows b c -> table_grows a c.
Proof.
  intros (k1 & c1 & -> & Hk1 & Hc1) (k2 & c2 & -> & Hk2 & Hc2).
  apply Forall2_app_inv_l in Hk2.
  destruct Hk2 as (k2a & k2b & Ha & Hb & ->).
  exists k2a, (k2b ++ c2). rewrite app_assoc. repeat split.
  - eapply rows_grow_trans; eauto.
  - apply Forall_app. split; [|assumption].
    eapply rows_grow_non_negative; eauto.
Qed.

Lemma table_grows_update (slug : string) (rows : list Urls.Row) :
  table_grows rows
    (map (fun r => if Sql.slug_is slug r then Urls.bump r else r) rows).
Proof.
  eexists _, []. rewrite app_nil_r. repeat split; [|constructor].
  induction rows as [|r rows IH]; simpl; constructor; [|exact IH].
  destruct (Sql.slug_is slug r); auto using row_grows_bump, row_grows_refl.
Qed.

Lemma table_grows_insert (rows : list Urls.Row) (row : Urls.Row) :
  Urls.views row = 0 -> table_grows rows (rows ++ [row]).
Proof.
  intros Hv. exists rows, [row]. repeat split; [apply rows_grow_refl|].
  constructor; [lia | constructor].
Qed.

Lemma table_grows_non_negative (rows rows' : list Urls.Row) :
  table_grows rows rows' ->
  Forall (fun r => 0 <= Urls.views r) rows ->
  Forall (fun r => 0 <= Urls.views r) rows'.
Proof.
  intros (kept & created & -> & Hk & Hc) Hrows.
  apply Forall_app. split; [|assumption].
  eapply rows_grow_non_negative; eauto.
Qed.

Lemma table_grows_nth (rows rows' : list Urls.Row) (k : nat) (row : Urls.Row) :
  table_grows rows rows' ->
  nth_error rows k = Some row ->
  exists row', nth_error rows' k = Some row' /\ row_grows row row'.
Proof.
  intros (kept & created & -> & Hk & Hc) Hnth.
  destruct (rows_grow_nth _ _ k row Hk Hnth) as (row' & Hn & Hg).
  exists row'. split; [|assumption].
  rewrite nth_error_app1; [assumption|].
  apply nth_error_Some. congruence.
Qed.

Lemma insert_user_urls (r : Users.Row) (d d' : Database) :
  Sql.insert_user r d = inr d' -> urls d' = urls d.
Proof.
  unfold Sql.insert_user.
  repeat match goal with
         | |- context [if ?b then _ else _] => destruct b
         end; try discriminate.
  intros E. injection E as <-. reflexivity.
Qed.

Lemma insert_url_urls (slug url owner : string) (t : Z) (d d' : Database) :
  Sql.insert_url slug url owner t d = inr d' ->
  urls d' = urls d ++ [Urls.mk (Sql.next_id d) slug url owner 0 t].
Proof.
  unfold Sql.insert_url. destruct (existsb _ _); [discriminate|].
  intros E. injection E as <-. reflexivity.
Qed.

Lemma serve_db (sha : string -> string) (r : Request) (e : Env) (d : Database) :
  snd (serve sha r e d) = db (snd (handle sha r (mkWorld d e 0 0))).
Proof. unfold serve. now destruct (handle sha r (mkWorld d e 0 0)). Qed.

(** What one request can do to the link table: nothing, Resolve's
    increment, or shorten_url's new row without views. *)
Lemma serve_step (sha : string -> string) (r : Request) (e : Env) (d : Database) :
  urls (snd (serve sha r e d)) = urls d \/
  (exists slug,
      r = Resolve slug /\
      urls (snd (serve sha r e d)) =
      map (fun x => if Sql.slug_is slug x then Urls.bump x else x) (urls d)) \/
  (exists link row,
      r = PostShorten link /\
      urls (snd (serve sha r e d)) = urls d ++ [row] /\
      Urls.views row = 0).
Proof.
  rewrite serve_db. destruct r as [user|user|link|slug request|slug|slug|uid];
    unfold handle.
  - left. unfold register_user_data. run_cases; try reflexivity.
    all: eapply insert_user_urls; eassumption.
  - left. unfold login_user_data. run_cases; reflexivity.
  - unfold shorten_url. run_cases; try (left; reflexivity).
    right. right. eexists link, _. split; [reflexivity|].
    split; [eapply insert_url_urls; eassumption | reflexivity].
  - left. unfold serve_ad_page_1. run_cases; reflexivity.
  - left. reflexivity.
  - unfold get_final_link. run_cases; try (left; reflexivity).
    right. left. exists slug. split; reflexivity.
  - left. unfold get_user_stats. run_handler.
    repeat (storage_any; [reflexivity|]). reflexivity.
Qed.

Lemma serve_grows (sha : string -> string) (r : Request) (e : Env) (d : Database) :
  table_grows (urls d) (urls (snd (serve sha r e d))).
Proof.
  destruct (serve_step sha r e d) as [E | [(slug & _ & E) | (link & row & _ & E & Hv)]];
    rewrite E.
  - apply table_grows_refl.
  - apply table_grows_update.
  - now apply table_grows_insert.
Qed.

Lemma serve_all_grows (sha : string -> string) (rs : list (Request * Env))
    (d : Database) :
  table_grows (urls d) (urls (serve_all sha rs d)).
Proof.
  revert d. induction rs as [|[r e] rs IH]; intros d; simpl.
  - apply table_grows_refl.
  - eapply table_grows_trans; [apply serve_grows | apply IH].
Qed.

Lemma serve_all_app (sha : string -> string) (rs1 rs2 : list (Request * Env))
    (d : Database) :
  serve_all sha (rs1 ++ rs2) d = serve_all sha rs2 (serve_all sha rs1 d).
Proof.
  revert d. induction rs1 as [|[r e] rs1 IH]; intros d; simpl; [reflexivity|].
  apply IH.
Qed.

(** C4.  Along every sequence of requests (register, login, shorten_url,
    Enter, Advance, Resolve, user_stats, under any storage faults): a link
    stored at some point is still stored at every later point, as the same
    link, with a view count that is no smaller; from a store without
    negative counts no negative count is ever reached; and one request
    leaves the link table alone, or is a Resolve that adds one to the views
    of its slug, or is a shorten_url that appends one link with views = 0. *)
Theorem views_never_decrease :
  forall (sha : string -> string) (rs1 rs2 : list (Request * Env))
         (d : Database),
    (forall k row,
        nth_error (urls (serve_all sha rs1 d)) k = Some row ->
        exists row',
          nth_error (urls (serve_all sha (rs1 ++ rs2) d)) k = Some row' /\
          row_grows row row') /\
    (views_non_negative d ->
     views_non_negative (serve_all sha (rs1 ++ rs2) d)) /\
    (forall r e d0,
        urls (snd (serve sha r e d0)) = urls d0 \/
        (exists slug,
            r = Resolve slug /\
            urls (snd (serve sha r e d0)) =
            map (fun x => if Sql.slug_is slug x then Urls.bump x else x)
              (urls d0)) \/
        (exists link row,
            r = PostShorten link /\
            urls (snd (serve sha r e d0)) = urls d0 ++ [row] /\
            Urls.views row = 0)).
Proof.
  intros sha rs1 rs2 d. repeat split.
  - intros k row Hk. rewrite serve_all_app.
    eapply table_grows_nth; [apply serve_all_grows | exact Hk].
  - intros Hd. eapply table_grows_non_negative; [apply serve_all_grows | exact Hd].
  - intros r e d0. apply serve_step.
Qed.

(** Every store reached from the freshly created database has only
    non-negative view counts. *)
Lemma views_non_negative_reachable (sha : string -> string)
    (rs : list (Request * Env)) :
  views_non_negative (serve_all sha rs empty_database).
Proof.
  eapply table_grows_non_negative; [apply serve_all_grows | constructor].
Qed.

(** ** Concurrent Resolve calls *)

Lemma views_of_update (slug : string) (d : Database) :
  views_of slug (Sql.update_views slug d) =
  option_map (fun v => v + 1) (views_of slug d).
Proof.
  unfold views_of, Sql.update_views. cbn [urls].
  induction (urls d) as [|r rows IH]; [reflexivity|]. cbn [map find].
  destruct (Sql.slug_is slug r) eqn:E.
  - change (Sql.slug_is slug (Urls.bump r)) with (Sql.slug_is slug r).
    now rewrite E.
  - rewrite E. exact IH.
Qed.

Section Threads.

Import Concurrent.

(** Run the next storage call of a thread. *)
Ltac thread_step :=
  cbn [resolve_step]; run_handler;
  repeat (change (fault_at quiet 0) with (@None SqlError); run_handler);
  cbn [in_txn txn].





Variable slug : string.
Variable v0 : Z.









Lemma run_cons (ev : Event) (rest : list Event) (sys : System) :
  run slug (ev :: rest) sys = run slug rest (step slug ev sys).
Proof. reflexivity. Qed.


Lemma nth_error_middle {A} (pre post : list A) (x : A) :
  nth_error (pre ++ x :: post) (List.length pre) = Some x.
Proof. induction pre as [|y pre IH]; simpl; auto. Qed.

Lemma set_nth_middle {A} (pre post : list A) (x y : A) :
  set_nth (List.length pre) y (pre ++ x :: post) = pre ++ y :: post.
Proof. induction pre as [|z pre IH]; simpl; [reflexivity | now rewrite IH]. Qed.

(** The four storage calls of a thread while no other thread holds the
    write lock. *)
Lemma turn_connect (d : Database) (pre post : list Pc) :
  step slug (Run (List.length pre)) (mkSystem d None (pre ++ AtConnect :: post)) =
  mkSystem d None (pre ++ AtSelect (mkConn None true) :: post).
Proof.
  cbn [step threads store writer]. rewrite nth_error_middle.
  cbn [writes_next andb]. thread_step. now rewrite set_nth_middle.
Qed.

Lemma turn_select (d : Database) (pre post : list Pc) :
  step slug (Run (List.length pre))
    (mkSystem d None (pre ++ AtSelect (mkConn None true) :: post)) =
  mkSystem d None
    (pre ++
     match Sql.select_original_url slug d with
     | Some url => AtUpdate (mkConn None true) url
     | None => Done (Raise (HTTPException 404 "Original URL not found."))
     end :: post).
Proof.
  cbn [step threads store writer]. rewrite nth_error_middle.
  cbn [writes_next andb]. thread_step.
  destruct (Sql.select_original_url slug d); thread_step;
    now rewrite set_nth_middle.
Qed.

Lemma turn_update (d : Database) (pre post : list Pc) (url : string) :
  step slug (Run (List.length pre))
    (mkSystem d None (pre ++ AtUpdate (mkConn None true) url :: post)) =
  mkSystem d (Some (List.length pre))
    (pre ++ AtCommit (mkConn (Some (Sql.update_views slug d)) true) url :: post).
Proof.
  cbn [step threads store writer]. rewrite nth_error_middle.
  cbn [writes_next andb locked_by_other]. thread_step.
  now rewrite set_nth_middle.
Qed.

Lemma turn_commit (d d' : Database) (pre post : list Pc) (url : string) :
  step slug (Run (List.length pre))
    (mkSystem d (Some (List.length pre))
       (pre ++ AtCommit (mkConn (Some d') true) url :: post)) =
  mkSystem d' None
    (pre ++ Done (Return (RedirectResponse url 302)) :: post).
Proof.
  cbn [step threads store writer]. rewrite nth_error_middle.
  cbn [writes_next andb]. thread_step. cbn [release].
  now rewrite Nat.eqb_refl, set_nth_middle.
Qed.

(** A whole request served while the others wait. *)
Lemma turn (d : Database) (pre post : list Pc) (url : string) :
  Sql.select_original_url slug d = Some url ->
  run slug (repeat (Run (List.length pre)) 4)
    (mkSystem d None (pre ++ AtConnect :: post)) =
  mkSystem (Sql.update_views slug d) None
    (pre ++ Done (Return (RedirectResponse url 302)) :: post).
Proof.
  intros Hsel. cbn [repeat].
  rewrite run_cons, turn_connect, run_cons, turn_select, Hsel.
  rewrite run_cons, turn_update, run_cons, turn_commit. reflexivity.
Qed.

Lemma single_thread_found (d : Database) (url : string) :
  Sql.select_original_url slug d = Some url ->
  run slug [Run 0%nat; Run 0%nat; Run 0%nat; Run 0%nat] (start 1 d) =
  mkSystem (Sql.update_views slug d) None
    [Done (Return (RedirectResponse url 302))].
Proof. intros Hsel. exact (turn d [] [] url Hsel). Qed.

Lemma single_thread_missing (d : Database) :
  Sql.select_original_url slug d = None ->
  run slug [Run 0%nat; Run 0%nat; Run 0%nat; Run 0%nat] (start 1 d) =
  mkSystem d None
    [Done (Raise (HTTPException 404 "Original URL not found."))].
Proof.
  intros Hsel. unfold start. cbn [repeat].
  pose proof (turn_connect d [] []) as Hconnect.
  pose proof (turn_select d [] []) as Hselect.
  cbn [List.length app] in Hconnect, Hselect.
  rewrite run_cons, Hconnect, run_cons, Hselect, Hsel. reflexivity.
Qed.




(** A thread running alone is [get_final_link]. *)
Lemma single_thread_is_get_final_link (d : Database) :
  let sys := run slug [Run 0%nat; Run 0%nat; Run 0%nat; Run 0%nat] (start 1 d) in
  let served := get_final_link slug (mkWorld d quiet 0 0) in
  store sys = db (snd served) /\
  threads sys = [Done (fst served)] /\
  writer sys = None.
Proof.
  assert (H : healthy (mkWorld d quiet 0 0)) by (intros n; reflexivity).
  destruct (Sql.select_original_url slug d) as [url|] eqn:Hsel.
  - rewrite (get_final_link_found _ slug url H Hsel).
    rewrite (single_thread_found d url Hsel). repeat split.
  - rewrite (get_final_link_missing _ slug H Hsel).
    rewrite (single_thread_missing d Hsel). repeat split.
Qed.


End Threads.



(** ** Sample runs *)

(** Enter on the sample store: an unknown slug, and abc123. *)
Lemma enter_unknown_404_known_page_witness :
  (fst (serve_ad_page_1 "nosuch" (HttpRequest.mk "http://short.example/")
          sample_world) = Raise (HTTPException 404 "Slug not found.")) /\
  (let page := ad_page_1_html "http://short.example" "abc123" in
   fst (serve_ad_page_1 "abc123" (HttpRequest.mk "http://short.example/")
          sample_world) = Return (HTMLResponse page) /\
   embeds "http://short.example" page /\
   embeds "abc123" page /\
   is_stage_1_page "http://short.example" "abc123" page).
Proof.
  pose proof (enter_unknown_404_known_page sample_world "nosuch"
                (HttpRequest.mk "http://short.example/")) as [Hmissing _].
  pose proof (enter_unknown_404_known_page sample_world "abc123"
                (HttpRequest.mk "http://short.example/")) as [_ Hstored].
  split.
  - apply Hmissing.
    + simpl. intros [H|H]; [discriminate H | exact H].
    + intros n. reflexivity.
  - destruct Hstored as (Hpage & _ & Hbase & Hslug & Hcontent).
    + simpl. left. reflexivity.
    + intros n. reflexivity.
    + split; [exact Hpage|]. split; [exact Hbase|].
      split; [exact Hslug | exact Hcontent].
Defined.

(** The spec's example: 2500 views earn 10.00; and 1234 views earn 4.94. *)
Lemma user_stats_earnings_witness :
  owned_views "u1" (db paid_world) = 2500 /\
  (exists stats,
      fst (get_user_stats "u1" paid_world) = Return (ModelResponse stats) /\
      UserStats.total_views stats = 2500 /\
      UserStats.total_earnings stats = Py.float_of_int 10) /\
  (exists stats,
      fst (get_user_stats "u3" odd_world) = Return (ModelResponse stats) /\
      UserStats.total_views stats = 1234 /\
      UserStats.total_earnings stats = float_of_hundredths false 494 /\
      UserStats.total_earnings stats <>
        Py.float_mul (Py.int_truediv 1234 1000) (Py.float_of_int 4)).
Proof.
  split; [reflexivity|]. split.
  - destruct (user_stats_earnings paid_world "u1") as [_ H].
    destruct H as (stats & Hret & Hviews & _ & _ & Hten & _).
    + intros n. reflexivity.
    + exists stats. split; [exact Hret|].
      split; [exact Hviews | apply Hten; reflexivity].
  - destruct (user_stats_earnings odd_world "u3") as [_ H].
    destruct H as (stats & Hret & Hviews & _ & _ & _ & _ & Hodd & _).
    + intros n. reflexivity.
    + exists stats. split; [exact Hret|]. split; [exact Hviews|].
      split; [apply Hodd; reflexivity|].
      rewrite (Hodd eq_refl). vm_compute. discriminate.
Defined.

(** user_stats for a user without links. *)
Lemma user_stats_no_links_witness :
  Sql.select_sum_views "nobody" (db sample_world) = None /\
  fst (get_user_stats "nobody" sample_world) =
    Return (ModelResponse
              (UserStats.mk 0 (S754_zero false) (Py.float_of_int 4) 0 [])) /\
  http_status (fst (get_user_stats "nobody" sample_world)) = 200.
Proof.
  apply (user_stats_no_links sample_world "nobody").
  - intros n. reflexivity.
  - simpl. intros r [<-|[]]. discriminate.
Defined.

Lemma failing_world_raises (w' : World) :
  (0 < calls w')%nat ->
  storage_raised failing_world w'
    (OperationalError "unable to open database file").
Proof. intros H. exists 0%nat. split; [simpl; lia | reflexivity]. Qed.

(** Every endpoint on a database file that cannot be opened. *)
Lemma storage_errors_caught_or_propagated_witness :
  fst (register_user_data sample_digest
         (UserRegister.mk "ann" "ann@example.com" "pw") failing_world) =
    Return (JSONResponse 500
              [("success", JBool false);
               ("message", JStr "An unexpected error occurred.")]) /\
  fst (login_user_data sample_digest (UserLogin.mk "ann" "pw") failing_world) =
    Return (JSONResponse 500
              [("success", JBool false);
               ("message", JStr "An unexpected error occurred.")]) /\
  fst (shorten_url (UrlShorten.mk "https://x.com" "u1") failing_world) =
    Return (JSONResponse 500
              [("success", JBool false);
               ("message", JStr "URL shortening failed.")]) /\
  fst (serve_ad_page_1 "abc123" (HttpRequest.mk "http://short.example/")
         failing_world) =
    Raise (Sqlite (OperationalError "unable to open database file")) /\
  fst (get_final_link "abc123" failing_world) =
    Raise (Sqlite (OperationalError "unable to open database file")).
Proof.
  destruct (storage_errors_caught_or_propagated sample_digest failing_world
              (OperationalError "unable to open database file"))
    as (Hreg & Hlogin & Hshort & Henter & Hresolve).
  split; [|split; [|split; [|split]]].
  - apply Hreg. apply failing_world_raises. simpl. lia.
  - apply Hlogin. apply failing_world_raises. simpl. lia.
  - apply Hshort. apply failing_world_raises. simpl. lia.
  - apply Henter. apply failing_world_raises. simpl. lia.
  - apply Hresolve. apply failing_world_raises. simpl. lia.
Defined.

(** A link is created and visited: its row stays and its count grows. *)
Lemma views_never_decrease_witness :
  nth_error (urls (serve_all sample_digest sample_creation empty_database)) 0
  = Some (Urls.mk 1 "0123456" "https://x.com" "u1" 0 1700000000) /\
  (exists row',
      nth_error
        (urls (serve_all sample_digest (sample_creation ++ sample_visits)
                 empty_database)) 0 = Some row' /\
      row_grows (Urls.mk 1 "0123456" "https://x.com" "u1" 0 1700000000) row') /\
  views_non_negative
    (serve_all sample_digest (sample_creation ++ sample_visits) empty_database).
Proof.
  destruct (views_never_decrease sample_digest sample_creation sample_visits
              empty_database) as (Hgrow & Hpos & _).
  split; [reflexivity|]. split.
  - apply Hgrow. reflexivity.
  - apply Hpos. constructor.
Defined.

(** The sample visits leave the link with two views: the Resolve that
    could not open the database counted nothing, and the repeated
    shorten_url created nothing. *)
Example sample_visits_count :
  urls (serve_all sample_digest (sample_creation ++ sample_visits)
          empty_database)
  = [Urls.mk 1 "0123456" "https://x.com" "u1" 2 1700000000].
Proof. vm_compute. reflexivity. Qed.

(** The spec's example: {abc123, https://example.com, views = 7}. *)
Example resolve_abc123 :
  get_final_link "abc123" sample_world =
  (Return (RedirectResponse "https://example.com" 302),
   mkWorld
     (mkDatabase [] [Urls.mk 1 "abc123" "https://example.com" "u1" 8 1690000000] 1)
     sample_env 4 0).
Proof. reflexivity. Qed.

(** ** More on Resolve: a view is counted exactly when the redirect is issued *)

Lemma resolve_redirect_counted (w : World) (slug : string) (r : Response) :
  fst (get_final_link slug w) = Return r ->
  exists url,
    r = RedirectResponse url 302 /\
    Sql.select_original_url slug (db w) = Some url /\
    db (snd (get_final_link slug w)) = Sql.update_views slug (db w).
Proof.
  destruct (Sql.select_original_url slug (db w)) as [url|] eqn:Hsel;
    unfold get_final_link; run_handler;
    repeat (storage_any; [discriminate|]); rewrite Hsel; run_handler;
    repeat (storage_any; [discriminate|]); try discriminate.
  intros E. injection E as <-. exists url. repeat split.
Qed.

Lemma resolve_failure_counts_nothing (w : World) (slug : string) (e : Exn) :
  fst (get_final_link slug w) = Raise e ->
  db (snd (get_final_link slug w)) = db w.
Proof.
  destruct (Sql.select_original_url slug (db w)) as [url|] eqn:Hsel;
    unfold get_final_link; run_handler;
    repeat (storage_any; [reflexivity|]); rewrite Hsel; run_handler;
    repeat (storage_any; [reflexivity|]); try reflexivity.
  discriminate.
Qed.

(** ** The UNIQUE constraint holds in every store the service reaches *)

Lemma slugs_after_update (slug : string) (rows : list Urls.Row) :
  map Urls.slug
    (map (fun x => if Sql.slug_is slug x then Urls.bump x else x) rows)
  = map Urls.slug rows.
Proof.
  induction rows as [|r rows IH]; simpl; [reflexivity|].
  rewrite IH. now destruct (Sql.slug_is slug r).
Qed.

Lemma NoDup_snoc {A} (l : list A) (x : A) :
  NoDup l -> ~ In x l -> NoDup (l ++ [x]).
Proof.
  induction 1 as [|y l Hy ND IH]; simpl; intros Hx.
  - constructor; [simpl; tauto | constructor].
  - constructor.
    + intros Hin. apply in_app_or in Hin. simpl in Hin.
      destruct Hin as [Hin|[->|[]]]; tauto.
    + apply IH. tauto.
Qed.

Lemma insert_url_unique (slug url owner : string) (t : Z) (d d' : Database) :
  Sql.insert_url slug url owner t d = inr d' ->
  unique_slugs d -> unique_slugs d'.
Proof.
  unfold Sql.insert_url, unique_slugs.
  destruct (existsb (Sql.slug_is slug) (urls d)) eqn:E; [discriminate|].
  intros H ND. injection H as <-. cbn [urls]. rewrite map_app. simpl.
  apply NoDup_snoc; [assumption|].
  intros Hin. apply in_map_iff in Hin. destruct Hin as (r & Hs & Hr).
  assert (existsb (Sql.slug_is slug) (urls d) = true); [|congruence].
  apply existsb_exists. exists r. split; [assumption|].
  now apply slug_is_true.
Qed.

Lemma serve_keeps_unique (sha : string -> string) (r : Request) (e : Env)
    (d : Database) :
  unique_slugs d -> unique_slugs (snd (serve sha r e d)).
Proof.
  intros ND. rewrite serve_db.
  destruct r as [user|user|link|slug request|slug|slug|uid]; unfold handle.
  - unfold register_user_data. run_cases; try assumption.
    all: unfold unique_slugs;
      erewrite insert_user_urls by eassumption; assumption.
  - unfold login_user_data. run_cases; assumption.
  - unfold shorten_url. run_cases; try assumption.
    eapply insert_url_unique; eassumption.
  - unfold serve_ad_page_1. run_cases; assumption.
  - assumption.
  - unfold get_final_link. run_cases; try assumption.
    unfold unique_slugs, Sql.update_views. cbn [urls].
    now rewrite slugs_after_update.
  - rewrite get_user_stats_reads. assumption.
Qed.

Lemma unique_slugs_reachable (sha : string -> string)
    (rs : list (Request * Env)) :
  unique_slugs (serve_all sha rs empty_database).
Proof.
  assert (H : unique_slugs empty_database) by constructor.
  revert H. generalize empty_database.
  induction rs as [|[r e] rs IH]; intros d H; simpl; [assumption|].
  apply IH. now apply serve_keeps_unique.
Qed.


(** * Further properties of the endpoints *)

(** ** register_user_data and login_user_data *)

Lemma select_user_none (username email : string) (d : Database) :
  Sql.select_user_by_name_or_email username email d = None ->
  forall r, In r (users d) ->
            Users.username r <> username /\ Users.email r <> email.
Proof.
  unfold Sql.select_user_by_name_or_email. intros E r Hin.
  pose proof (find_none _ _ E r Hin) as H. cbv beta in H.
  apply orb_false_iff in H. destruct H as [Hu He].
  split; now apply String.eqb_neq.
Qed.

Lemma existsb_false_by {A} (p : A -> bool) (l : list A) :
  (forall x, In x l -> p x = false) -> existsb p l = false.
Proof.
  induction l as [|x l IH]; simpl; intros H; [reflexivity|].
  rewrite (H x) by auto. simpl. apply IH. auto.
Qed.

(** The INSERT of a user whose name, email and uid are all new. *)
Lemma insert_user_new (r : Users.Row) (d : Database) :
  Sql.select_user_by_name_or_email (Users.username r) (Users.email r) d = None ->
  existsb (fun x => String.eqb (Users.uid x) (Users.uid r)) (users d) = false ->
  Sql.insert_user r d = inr (mkDatabase (users d ++ [r]) (urls d) (urls_seq d)).
Proof.
  intros Hsel Huid. unfold Sql.insert_user. rewrite Huid.
  pose proof (select_user_none _ _ d Hsel) as Hnew.
  rewrite !existsb_false_by; [reflexivity | |];
    intros x Hx; apply String.eqb_neq; now apply Hnew.
Qed.

Lemma select_user_none_by (username email : string) (d : Database) :
  (forall r, In r (users d) ->
             Users.username r <> username /\ Users.email r <> email) ->
  Sql.select_user_by_name_or_email username email d = None.
Proof.
  intros Hnew. unfold Sql.select_user_by_name_or_email.
  destruct (find _ (users d)) as [r|] eqn:E; [|reflexivity].
  destruct (find_some _ _ E) as [Hin Hp]. cbv beta in Hp.
  destruct (Hnew r Hin) as (Hu & He).
  apply String.eqb_neq in Hu. apply String.eqb_neq in He.
  rewrite Hu, He in Hp. discriminate.
Qed.

(** The run of register_user_data that creates the account. *)
Lemma register_run_new (sha : string -> string) (w : World)
    (user : UserRegister.t) :
  healthy w ->
  Sql.select_user_by_name_or_email (UserRegister.username user)
    (UserRegister.email user) (db w) = None ->
  (forall r, In r (users (db w)) ->
             Users.uid r <> Py.uuid_str (uuid_at (env w) (draws w))) ->
  register_user_data sha user w =
  (Return (JSONResponse 200
             [("success", JBool true);
              ("message", JStr "Registration successful!")]),
   mkWorld
     (mkDatabase
        (users (db w) ++
         [Users.mk (Py.uuid_str (uuid_at (env w) (draws w)))
            (UserRegister.username user) (UserRegister.email user)
            (sha (UserRegister.password user)) (now (env w))])
        (urls (db w)) (urls_seq (db w)))
     (env w) (4 + calls w) (S (draws w))).
Proof.
  intros H Hsel Huid.
  unfold register_user_data. run_handler. do 2 storage_ok H.
  rewrite Hsel. run_handler. storage_ok H.
  rewrite insert_user_new.
  - run_handler. storage_ok H. reflexivity.
  - exact Hsel.
  - apply existsb_false_by. intros x Hx. apply String.eqb_neq.
    now apply Huid.
Qed.

(** The run of register_user_data that finds the name or the email taken. *)
Lemma register_run_taken (sha : string -> string) (w : World)
    (user : UserRegister.t) (existing : Users.Row) :
  healthy w ->
  Sql.select_user_by_name_or_email (UserRegister.username user)
    (UserRegister.email user) (db w) = Some existing ->
  register_user_data sha user w =
  (Return
     (rejection
        (if String.eqb (Users.username existing) (UserRegister.username user)
         then "Username already taken." else "Email already in use.")),
   mkWorld (db w) (env w) (2 + calls w) (draws w)).
Proof.
  intros H Hsel.
  unfold Sql.select_user_by_name_or_email in Hsel.
  destruct (find_some _ _ Hsel) as [_ Hp]. cbv beta in Hp.
  unfold register_user_data. run_handler. do 2 storage_ok H.
  unfold Sql.select_user_by_name_or_email. rewrite Hsel. run_handler.
  destruct (String.eqb (Users.username existing) (UserRegister.username user));
    run_handler; [reflexivity|].
  simpl in Hp. rewrite Hp. reflexivity.
Qed.

(** X1.  When a stored user has the requested username or the requested
    email, register_user_data (on working storage) changes nothing and
    answers 200 with success = false and one of its two messages:
    "Username already taken." if no stored user has that email, "Email
    already in use." if no stored user has that username. *)
Theorem register_rejects_taken :
  forall (sha : string -> string) (w : World) (user : UserRegister.t)
         (row : Users.Row),
    healthy w ->
    In row (users (db w)) ->
    Users.username row = UserRegister.username user \/
    Users.email row = UserRegister.email user ->
    exists message,
      fst (register_user_data sha user w) = Return (rejection message) /\
      db (snd (register_user_data sha user w)) = db w /\
      (message = "Username already taken." \/
       message = "Email already in use.") /\
      ((forall r, In r (users (db w)) ->
                  Users.email r <> UserRegister.email user) ->
       message = "Username already taken.") /\
      ((forall r, In r (users (db w)) ->
                  Users.username r <> UserRegister.username user) ->
       message = "Email already in use.").
Proof.
  intros sha w user row H Hin Hmatch.
  destruct (Sql.select_user_by_name_or_email (UserRegister.username user)
              (UserRegister.email user) (db w)) as [existing|] eqn:Hsel.
  - rewrite (register_run_taken sha w user existing H Hsel).
    unfold Sql.select_user_by_name_or_email in Hsel.
    destruct (find_some _ _ Hsel) as [Hex Hp]. cbv beta in Hp.
    destruct (String.eqb_spec (Users.username existing)
                (UserRegister.username user)) as [Eu|Eu].
    + exists "Username already taken.". repeat split; auto.
      intros Hno. elim (Hno existing Hex Eu).
    + exists "Email already in use.". repeat split; auto.
      intros Hno. simpl in Hp. apply String.eqb_eq in Hp.
      elim (Hno existing Hex Hp).
  - exfalso. destruct (select_user_none _ _ _ Hsel row Hin). tauto.
Qed.

(** The username ann is taken. *)
Lemma register_rejects_taken_witness :
  exists message,
    fst (register_user_data sample_digest
           (UserRegister.mk "ann" "other@example.com" "x") users_world)
    = Return (rejection message) /\
    db (snd (register_user_data sample_digest
               (UserRegister.mk "ann" "other@example.com" "x") users_world))
    = db users_world /\
    message = "Username already taken.".
Proof.
  destruct (register_rejects_taken sample_digest users_world
              (UserRegister.mk "ann" "other@example.com" "x") ann_row)
    as (message & Hret & Hdb & _ & Hname & _).
  - intros n. reflexivity.
  - simpl. left. reflexivity.
  - left. reflexivity.
  - exists message. split; [exact Hret|]. split; [exact Hdb|].
    apply Hname. simpl. intros r [<-|[]]. discriminate.
Defined.

(** X2.  When no stored user has the requested username or email and the
    drawn uuid is not a stored uid, register_user_data (on working storage)
    answers "Registration successful!" and appends exactly one user: uid =
    str(uuid4), the requested username and email, the SHA-256 digest of the
    password (not the password), created_at = now.  The links are
    untouched. *)
Theorem register_creates_account :
  forall (sha : string -> string) (w : World) (user : UserRegister.t),
    healthy w ->
    (forall r, In r (users (db w)) ->
               Users.username r <> UserRegister.username user /\
               Users.email r <> UserRegister.email user /\
               Users.uid r <> Py.uuid_str (uuid_at (env w) (draws w))) ->
    fst (register_user_data sha user w) =
      Return (JSONResponse 200
                [("success", JBool true);
                 ("message", JStr "Registration successful!")]) /\
    db (snd (register_user_data sha user w)) =
      mkDatabase
        (users (db w) ++
         [Users.mk (Py.uuid_str (uuid_at (env w) (draws w)))
            (UserRegister.username user) (UserRegister.email user)
            (sha (UserRegister.password user)) (now (env w))])
        (urls (db w)) (urls_seq (db w)).
Proof.
  intros sha w user H Hnew.
  rewrite (register_run_new sha w user H).
  - split; reflexivity.
  - apply select_user_none_by. intros r Hin. destruct (Hnew r Hin). tauto.
  - intros r Hin. now apply Hnew.
Qed.

(** Ann registers on the fresh database. *)
Lemma register_creates_account_witness :
  fst (register_user_data sample_digest ann empty_world) =
    Return (JSONResponse 200
              [("success", JBool true);
               ("message", JStr "Registration successful!")]) /\
  db (snd (register_user_data sample_digest ann empty_world)) =
    mkDatabase [ann_row] [] 0.
Proof.
  apply (register_creates_account sample_digest empty_world ann).
  - intros n. reflexivity.
  - simpl. intros r [].
Defined.

(** X3.  Register, then log in: after register_user_data created the
    account, login_user_data with the same username and password (on
    working storage, on the database register left) answers "Login
    successful!" with that username and the uid register gave, and changes
    nothing. *)
Theorem register_then_login :
  forall (sha : string -> string) (w w' : World) (user : UserRegister.t),
    healthy w ->
    (forall r, In r (users (db w)) ->
               Users.username r <> UserRegister.username user /\
               Users.email r <> UserRegister.email user /\
               Users.uid r <> Py.uuid_str (uuid_at (env w) (draws w))) ->
    healthy w' ->
    db w' = db (snd (register_user_data sha user w)) ->
    let login := UserLogin.mk (UserRegister.username user)
                   (UserRegister.password user) in
    fst (login_user_data sha login w') =
      Return (JSONResponse 200
                [("success", JBool true);
                 ("message", JStr "Login successful!");
                 ("username", JStr (UserRegister.username user));
                 ("uid", JStr (Py.uuid_str (uuid_at (env w) (draws w))))]) /\
    db (snd (login_user_data sha login w')) = db w'.
Proof.
  intros sha w w' user H Hnew H' Hdb login.
  rewrite (register_run_new sha w user H) in Hdb.
  2: { apply select_user_none_by. intros r Hin. destruct (Hnew r Hin). tauto. }
  2: { intros r Hin. now apply Hnew. }
  cbn [snd db] in Hdb.
  assert (Hsel : Sql.select_user_by_name (UserRegister.username user) (db w') =
                 Some (Users.mk (Py.uuid_str (uuid_at (env w) (draws w)))
                         (UserRegister.username user) (UserRegister.email user)
                         (sha (UserRegister.password user)) (now (env w)))).
  { unfold Sql.select_user_by_name. rewrite Hdb. cbn [users].
    rewrite find_app_none.
    - cbn [find Users.username]. now rewrite String.eqb_refl.
    - destruct (find _ (users (db w))) as [r|] eqn:E; [|reflexivity].
      destruct (find_some _ _ E) as [Hin Hp]. cbv beta in Hp.
      apply String.eqb_eq in Hp. now destruct (Hnew r Hin). }
  unfold login_user_data. run_handler. do 2 storage_ok H'.
  unfold login. cbn [UserLogin.username UserLogin.password].
  rewrite Hsel. run_handler. cbn [Users.password_hash Users.username Users.uid].
  unfold hash_password. rewrite String.eqb_refl. split; reflexivity.
Qed.

(** Ann registers on the fresh database and logs in. *)
Lemma register_then_login_witness :
  fst (login_user_data sample_digest (UserLogin.mk "ann" "pw") users_world) =
    Return (JSONResponse 200
              [("success", JBool true);
               ("message", JStr "Login successful!");
               ("username", JStr "ann");
               ("uid", JStr "01234567-89ab-cdef-0123-456789abcdef")]) /\
  db (snd (login_user_data sample_digest (UserLogin.mk "ann" "pw") users_world))
  = db users_world.
Proof.
  apply (register_then_login sample_digest empty_world users_world ann).
  - intros n. reflexivity.
  - simpl. intros r [].
  - intros n. reflexivity.
  - reflexivity.
Defined.

(** X4.  login_user_data gives one and the same answer, "Invalid username
    or password." with status 200, to an unknown username and to a wrong
    password: whenever no stored user with that username has the digest of
    the given password (on working storage).  Nothing is changed. *)
Theorem login_rejects_bad_credentials :
  forall (sha : string -> string) (w : World) (user : UserLogin.t),
    healthy w ->
    (forall r, In r (users (db w)) ->
               Users.username r = UserLogin.username user ->
               Users.password_hash r <> sha (UserLogin.password user)) ->
    fst (login_user_data sha user w) =
      Return (rejection "Invalid username or password.") /\
    db (snd (login_user_data sha user w)) = db w.
Proof.
  intros sha w user H Hbad.
  unfold login_user_data. run_handler. do 2 storage_ok H.
  destruct (Sql.select_user_by_name (UserLogin.username user) (db w))
    as [found|] eqn:Hsel; run_handler; [|split; reflexivity].
  unfold Sql.select_user_by_name in Hsel.
  destruct (find_some _ _ Hsel) as [Hin Hp]. cbv beta in Hp.
  apply String.eqb_eq in Hp. unfold hash_password.
  pose proof (Hbad found Hin Hp) as Hne. apply String.eqb_neq in Hne.
  rewrite Hne. split; reflexivity.
Qed.

(** A wrong password for ann, and a user nobody registered. *)
Lemma login_rejects_bad_credentials_witness :
  fst (login_user_data sample_digest (UserLogin.mk "ann" "guess") users_world) =
    Return (rejection "Invalid username or password.") /\
  fst (login_user_data sample_digest (UserLogin.mk "bob" "pw") users_world) =
    Return (rejection "Invalid username or password.").
Proof.
  split.
  - apply (login_rejects_bad_credentials sample_digest users_world
             (UserLogin.mk "ann" "guess")).
    + intros n. reflexivity.
    + simpl. intros r [<-|[]] _. discriminate.
  - apply (login_rejects_bad_credentials sample_digest users_world
             (UserLogin.mk "bob" "pw")).
    + intros n. reflexivity.
    + simpl. intros r [<-|[]] Hname. discriminate Hname.
Defined.

(** X5.  On working storage register_user_data answers 500 only when the
    drawn uuid collides with a stored uid: otherwise the status is 200.  In
    particular the statements after the [conn.close()] of the rejection
    branch are never reached with an existing user in hand. *)
Theorem register_answers_200 :
  forall (sha : string -> string) (w : World) (user : UserRegister.t),
    healthy w ->
    (forall r, In r (users (db w)) ->
               Users.uid r <> Py.uuid_str (uuid_at (env w) (draws w))) ->
    http_status (fst (register_user_data sha user w)) = 200.
Proof.
  intros sha w user H Huid.
  destruct (Sql.select_user_by_name_or_email (UserRegister.username user)
              (UserRegister.email user) (db w)) as [existing|] eqn:Hsel.
  - now rewrite (register_run_taken sha w user existing H Hsel).
  - now rewrite (register_run_new sha w user H Hsel Huid).
Qed.

(** Ann's registration is answered with 200 on the fresh database, where
    it succeeds, and on the store that has her, where it is rejected. *)
Lemma register_answers_200_witness :
  http_status (fst (register_user_data sample_digest ann empty_world)) = 200 /\
  http_status
    (fst (register_user_data sample_digest
            (UserRegister.mk "ann" "ann2@example.com" "pw")
            (mkWorld (db users_world) collision_env 0 0))) = 200.
Proof.
  split.
  - apply (register_answers_200 sample_digest empty_world ann).
    + intros n. reflexivity.
    + simpl. intros r [].
  - apply (register_answers_200 sample_digest
             (mkWorld (db users_world) collision_env 0 0)
             (UserRegister.mk "ann" "ann2@example.com" "pw")).
    + intros n. reflexivity.
    + simpl. intros r [<-|[]]. discriminate.
Defined.

(** ** The UNIQUE constraints *)

Lemma insert_user_unique (r : Users.Row) (d d' : Database) :
  Sql.insert_user r d = inr d' -> unique_users d -> unique_users d'.
Proof.
  unfold Sql.insert_user, unique_users.
  destruct (existsb (fun x => String.eqb (Users.uid x) (Users.uid r))
              (users d)) eqn:Euid; [discriminate|].
  destruct (existsb (fun x => String.eqb (Users.username x) (Users.username r))
              (users d)) eqn:Ename; [discriminate|].
  destruct (existsb (fun x => String.eqb (Users.email x) (Users.email r))
              (users d)) eqn:Email; [discriminate|].
  intros E (Hn & He & Hu). injection E as <-. cbn [users].
  rewrite !map_app. cbn [map].
  assert (Hfresh : forall (f : Users.Row -> string),
             existsb (fun x => String.eqb (f x) (f r)) (users d) = false ->
             ~ In (f r) (map f (users d))).
  { intros f Hex Hin. apply in_map_iff in Hin. destruct Hin as (x & Hx & Hin).
    assert (existsb (fun x => String.eqb (f x) (f r)) (users d) = true);
      [|congruence].
    apply existsb_exists. exists x. split; [assumption|].
    now apply String.eqb_eq. }
  repeat split; apply NoDup_snoc; auto.
Qed.

Lemma insert_url_users (slug url owner : string) (t : Z) (d d' : Database) :
  Sql.insert_url slug url owner t d = inr d' -> users d' = users d.
Proof.
  unfold Sql.insert_url. destruct (existsb _ _); [discriminate|].
  intros E. injection E as <-. reflexivity.
Qed.

Lemma serve_keeps_unique_users (sha : string -> string) (r : Request)
    (e : Env) (d : Database) :
  unique_users d -> unique_users (snd (serve sha r e d)).
Proof.
  intros ND. rewrite serve_db.
  destruct r as [user|user|link|slug request|slug|slug|uid]; unfold handle.
  - unfold register_user_data. run_cases; try assumption.
    all: eapply insert_user_unique; eassumption.
  - unfold login_user_data. run_cases; assumption.
  - unfold shorten_url. run_cases; try assumption.
    unfold unique_users. erewrite insert_url_users by eassumption. assumption.
  - unfold serve_ad_page_1. run_cases; assumption.
  - assumption.
  - unfold get_final_link. run_cases; assumption.
  - rewrite get_user_stats_reads. assumption.
Qed.

(** X6.  No sequence of requests, under any storage faults, ever leaves two
    accounts with the same username, the same email or the same uid: the
    three UNIQUE constraints of the users table are kept from any store
    that satisfies them, so in every store reached from the fresh
    database. *)
Theorem accounts_stay_unique :
  forall (sha : string -> string) (rs : list (Request * Env)) (d : Database),
    unique_users d -> unique_users (serve_all sha rs d).
Proof.
  intros sha rs. induction rs as [|[r e] rs IH]; intros d H; simpl.
  - assumption.
  - apply IH. now apply serve_keeps_unique_users.
Qed.

(** Two registrations of ann and one of bob with her email leave one
    account. *)
Lemma accounts_stay_unique_witness :
  unique_users (serve_all sample_digest sample_accounts empty_database) /\
  users (serve_all sample_digest sample_accounts empty_database) = [ann_row].
Proof.
  split; [|reflexivity].
  apply (accounts_stay_unique sample_digest sample_accounts empty_database).
  repeat split; constructor.
Defined.

(** X7.  No sequence of requests, under any storage faults, ever leaves two
    links with the same slug: the UNIQUE constraint on urls.slug is kept
    from any store that satisfies it. *)
Theorem slugs_stay_unique :
  forall (sha : string -> string) (rs : list (Request * Env)) (d : Database),
    unique_slugs d -> unique_slugs (serve_all sha rs d).
Proof.
  intros sha rs. induction rs as [|[r e] rs IH]; intros d H; simpl.
  - assumption.
  - apply IH. now apply serve_keeps_unique.
Qed.

(** The sample creation and visits keep one link per slug. *)
Lemma slugs_stay_unique_witness :
  unique_slugs
    (serve_all sample_digest (sample_creation ++ sample_visits) empty_database).
Proof.
  apply (slugs_stay_unique sample_digest (sample_creation ++ sample_visits)
           empty_database).
  constructor.
Defined.

(** ** Requests that only read *)

Lemma login_reads (sha : string -> string) (user : UserLogin.t) (w : World) :
  db (snd (login_user_data sha user w)) = db w.
Proof. unfold login_user_data. run_cases; reflexivity. Qed.

Lemma enter_reads (slug : string) (request : HttpRequest.t) (w : World) :
  db (snd (serve_ad_page_1 slug request w)) = db w.
Proof. unfold serve_ad_page_1. run_cases; reflexivity. Qed.

(** X8.  Login, Enter, Advance and user_stats never change the database,
    whatever the storage layer does: after any sequence of them the store
    is exactly as before, so a Resolve served after them gives the same
    answer and the same store as a Resolve served without them.  The
    server keeps no trace of the interstitial steps. *)
Theorem reading_requests_leave_no_trace :
  forall (sha : string -> string) (rs : list (Request * Env)) (d : Database),
    forallb (fun re => reads_only (fst re)) rs = true ->
    serve_all sha rs d = d /\
    (forall slug e,
        serve sha (Resolve slug) e (serve_all sha rs d) =
        serve sha (Resolve slug) e d).
Proof.
  intros sha rs d Hall.
  assert (E : serve_all sha rs d = d).
  { revert d. induction rs as [|[r e] rs IH]; intros d; [reflexivity|].
    cbn [forallb fst] in Hall. apply andb_true_iff in Hall.
    destruct Hall as [Hr Hrest]. cbn [serve_all].
    rewrite serve_db.
    assert (Hd : db (snd (handle sha r (mkWorld d e 0 0))) = d).
    { destruct r; try discriminate Hr; unfold handle.
      - apply login_reads.
      - apply enter_reads.
      - reflexivity.
      - apply get_user_stats_reads. }
    rewrite Hd. now apply IH. }
  split; [exact E|]. intros slug e. now rewrite E.
Qed.

(** Browsing the sample store without ever resolving. *)
Lemma reading_requests_leave_no_trace_witness :
  serve_all sample_digest sample_browsing (db sample_world) = db sample_world /\
  (forall slug e,
      serve sample_digest (Resolve slug) e
        (serve_all sample_digest sample_browsing (db sample_world)) =
      serve sample_digest (Resolve slug) e (db sample_world)).
Proof.
  apply (reading_requests_leave_no_trace sample_digest sample_browsing
           (db sample_world)).
  reflexivity.
Defined.

(** ** shorten_url: creation, collision, and the way to the link *)

Lemma select_slug_none_by (url owner : string) (d : Database) :
  (forall r, In r (urls d) ->
             ~ (Urls.original_url r = url /\ Urls.user_uid r = owner)) ->
  Sql.select_slug url owner d = None.
Proof.
  intros Hnew. unfold Sql.select_slug.
  destruct (find _ (urls d)) as [r|] eqn:E; [|reflexivity].
  destruct (find_some _ _ E) as [Hin Hp]. cbv beta in Hp.
  apply andb_true_iff in Hp. destruct Hp as [Hu Ho].
  apply String.eqb_eq in Hu. apply String.eqb_eq in Ho.
  elim (Hnew r Hin). auto.
Qed.

Lemma slug_unused (slug : string) (d : Database) :
  ~ In slug (map Urls.slug (urls d)) ->
  existsb (Sql.slug_is slug) (urls d) = false.
Proof.
  intros Hnew. apply existsb_false_by. intros r Hin.
  apply slug_is_false. intros E. apply Hnew. rewrite <- E. now apply in_map.
Qed.

(** X9.  For a (url, owner) pair the store does not have, when the first
    seven hex digits of the drawn uuid are not a stored slug, shorten_url
    (on working storage) answers 200 with that seven-digit slug and appends
    exactly one link: that slug, the url, the owner, views = 0, created_at
    = now.  Users and the other links are untouched. *)
Theorem shorten_url_new_link :
  forall (w : World) (link : UrlShorten.t),
    healthy w ->
    (forall r, In r (urls (db w)) ->
               ~ (Urls.original_url r = UrlShorten.url link /\
                  Urls.user_uid r = UrlShorten.user_uid link)) ->
    let slug := substring 0 7 (uuid_at (env w) (draws w)) in
    ~ In slug (map Urls.slug (urls (db w))) ->
    fst (shorten_url link w) =
      Return (JSONResponse 200 [("success", JBool true); ("slug", JStr slug)]) /\
    users (db (snd (shorten_url link w))) = users (db w) /\
    exists new_id,
      urls (db (snd (shorten_url link w))) =
      urls (db w) ++
      [Urls.mk new_id slug (UrlShorten.url link) (UrlShorten.user_uid link)
         0 (now (env w))].
Proof.
  intros w link H Hpair slug Hslug.
  destruct (shorten_url_creates w link H
              (select_slug_none_by _ _ _ Hpair)
              (slug_unused _ _ Hslug)) as [Hret Hdb].
  fold slug in Hret, Hdb. rewrite Hret, Hdb. cbn [users urls].
  split; [reflexivity|]. split; [reflexivity|].
  exists (Sql.next_id (db w)). reflexivity.
Qed.

(** A second URL is shortened on the sample store. *)
Lemma shorten_url_new_link_witness :
  fst (shorten_url (UrlShorten.mk "https://x.com" "u1") sample_world) =
    Return (JSONResponse 200
              [("success", JBool true); ("slug", JStr "0123456")]) /\
  users (db (snd (shorten_url (UrlShorten.mk "https://x.com" "u1")
                    sample_world))) = [] /\
  exists new_id,
    urls (db (snd (shorten_url (UrlShorten.mk "https://x.com" "u1")
                     sample_world))) =
    [sample_row; Urls.mk new_id "0123456" "https://x.com" "u1" 0 1700000000].
Proof.
  apply (shorten_url_new_link sample_world (UrlShorten.mk "https://x.com" "u1")).
  - intros n. reflexivity.
  - simpl. intros r [<-|[]] [Hurl _]. discriminate Hurl.
  - simpl. intros [E|[]]. discriminate E.
Defined.

(** X10.  A slug collision is not retried: for a new (url, owner) pair,
    when the first seven hex digits of the drawn uuid are already a stored
    slug, shorten_url answers the generic 500 "URL shortening failed." and
    the database is unchanged. *)
Theorem shorten_url_slug_collision :
  forall (w : World) (link : UrlShorten.t),
    healthy w ->
    (forall r, In r (urls (db w)) ->
               ~ (Urls.original_url r = UrlShorten.url link /\
                  Urls.user_uid r = UrlShorten.user_uid link)) ->
    In (substring 0 7 (uuid_at (env w) (draws w)))
       (map Urls.slug (urls (db w))) ->
    fst (shorten_url link w) =
      Return (JSONResponse 500
                [("success", JBool false);
                 ("message", JStr "URL shortening failed.")]) /\
    db (snd (shorten_url link w)) = db w.
Proof.
  intros w link H Hpair Hslug.
  assert (Hex : existsb (Sql.slug_is (substring 0 7 (uuid_at (env w) (draws w))))
                  (urls (db w)) = true).
  { apply in_map_iff in Hslug. destruct Hslug as (r & Hs & Hin).
    apply existsb_exists. exists r. split; [assumption|].
    now apply slug_is_true. }
  unfold shorten_url. run_handler. do 2 storage_ok H.
  rewrite (select_slug_none_by _ _ _ Hpair). run_handler. storage_ok H.
  unfold Sql.insert_url. rewrite Hex. split; reflexivity.
Qed.

(** The drawn uuid starts with the stored slug abc123f. *)
Lemma shorten_url_slug_collision_witness :
  fst (shorten_url (UrlShorten.mk "https://x.com" "u2") collision_world) =
    Return (JSONResponse 500
              [("success", JBool false);
               ("message", JStr "URL shortening failed.")]) /\
  db (snd (shorten_url (UrlShorten.mk "https://x.com" "u2") collision_world))
  = db collision_world.
Proof.
  apply (shorten_url_slug_collision collision_world
           (UrlShorten.mk "https://x.com" "u2")).
  - intros n. reflexivity.
  - simpl. intros r [<-|[]] [Hurl _]. discriminate Hurl.
  - simpl. left. reflexivity.
Defined.

Lemma select_original_url_last (rows : list Urls.Row) (row : Urls.Row)
    (users_ : list Users.Row) (seq : Z) :
  ~ In (Urls.slug row) (map Urls.slug rows) ->
  Sql.select_original_url (Urls.slug row)
    (mkDatabase users_ (rows ++ [row]) seq) = Some (Urls.original_url row).
Proof.
  intros Hnew. unfold Sql.select_original_url. cbn [urls].
  rewrite find_app_none by now apply find_slug_none.
  cbn [find]. replace (Sql.slug_is (Urls.slug row) row) with true;
    [reflexivity | symmetry; now apply slug_is_true].
Qed.

(** X11.  From shorten_url to the link: after shorten_url created a link
    (new pair, unused slug), on the database it left and with working
    storage, Enter of the returned slug shows the Stage-1 page, and
    Resolve of the returned slug redirects (302) to the shortened URL and
    leaves the new link with views = 1 and every older link as it was. *)
Theorem shorten_then_visit :
  forall (w w' : World) (link : UrlShorten.t) (request : HttpRequest.t),
    healthy w ->
    (forall r, In r (urls (db w)) ->
               ~ (Urls.original_url r = UrlShorten.url link /\
                  Urls.user_uid r = UrlShorten.user_uid link)) ->
    let slug := substring 0 7 (uuid_at (env w) (draws w)) in
    ~ In slug (map Urls.slug (urls (db w))) ->
    healthy w' ->
    db w' = db (snd (shorten_url link w)) ->
    fst (serve_ad_page_1 slug request w') =
      Return (HTMLResponse
                (ad_page_1_html
                   (Py.rstrip_slash (HttpRequest.base_url request)) slug)) /\
    fst (get_final_link slug w') =
      Return (RedirectResponse (UrlShorten.url link) 302) /\
    urls (db (snd (get_final_link slug w'))) =
      urls (db w) ++
      [Urls.mk (Sql.next_id (db w)) slug (UrlShorten.url link)
         (UrlShorten.user_uid link) 1 (now (env w))].
Proof.
  intros w w' link request H Hpair slug Hslug H' Hdb.
  destruct (shorten_url_creates w link H
              (select_slug_none_by _ _ _ Hpair)
              (slug_unused _ _ Hslug)) as [_ Hd].
  fold slug in Hd. rewrite Hd in Hdb.
  set (row := Urls.mk (Sql.next_id (db w)) slug (UrlShorten.url link)
                (UrlShorten.user_uid link) 0 (now (env w))) in *.
  assert (Hsel : Sql.select_original_url slug (db w') = Some (UrlShorten.url link)).
  { rewrite Hdb. apply (select_original_url_last (urls (db w)) row). exact Hslug. }
  split; [|split].
  - unfold serve_ad_page_1. run_handler. do 2 storage_ok H'.
    rewrite Hsel. reflexivity.
  - now rewrite (get_final_link_found w' slug _ H' Hsel).
  - rewrite (get_final_link_found w' slug _ H' Hsel). cbn [snd db].
    rewrite Hdb. unfold Sql.update_views. cbn [urls].
    rewrite map_app, (bump_others slug (urls (db w)) Hslug). cbn [map].
    replace (Sql.slug_is slug row) with true; [reflexivity|].
    symmetry. now apply slug_is_true.
Qed.

(** The link shortened on the sample store is entered and resolved. *)
Lemma shorten_then_visit_witness :
  let w' := mkWorld (db (snd (shorten_url (UrlShorten.mk "https://x.com" "u1")
                                sample_world))) sample_env 0 0 in
  fst (serve_ad_page_1 "0123456" (HttpRequest.mk "http://short.example/") w') =
    Return (HTMLResponse (ad_page_1_html "http://short.example" "0123456")) /\
  fst (get_final_link "0123456" w') =
    Return (RedirectResponse "https://x.com" 302) /\
  urls (db (snd (get_final_link "0123456" w'))) =
    [sample_row; Urls.mk 2 "0123456" "https://x.com" "u1" 1 1700000000].
Proof.
  apply (shorten_then_visit sample_world
           (mkWorld (db (snd (shorten_url (UrlShorten.mk "https://x.com" "u1")
                                sample_world))) sample_env 0 0)
           (UrlShorten.mk "https://x.com" "u1")
           (HttpRequest.mk "http://short.example/")).
  - intros n. reflexivity.
  - simpl. intros r [<-|[]] [Hurl _]. discriminate Hurl.
  - simpl. intros [E|[]]. discriminate E.
  - intros n. reflexivity.
  - reflexivity.
Defined.

(** ** Resolve: what is counted, and for whom *)

(** X12.  Whatever the storage layer does, Resolve ends in one of two ways:
    it returns the 302 redirect and the committed database is the old one
    with the slug's views incremented, or it raises and the committed
    database is the old one.  No view is counted without the redirect and
    no redirect is issued without the view. *)
Theorem resolve_counts_iff_redirects :
  forall (w : World) (slug : string),
    (exists url,
        fst (get_final_link slug w) = Return (RedirectResponse url 302) /\
        Sql.select_original_url slug (db w) = Some url /\
        db (snd (get_final_link slug w)) = Sql.update_views slug (db w) /\
        views_of slug (db (snd (get_final_link slug w))) =
          option_map (fun v => v + 1) (views_of slug (db w))) \/
    (exists e,
        fst (get_final_link slug w) = Raise e /\
        db (snd (get_final_link slug w)) = db w).
Proof.
  intros w slug. destruct (fst (get_final_link slug w)) as [r|e] eqn:E.
  - left. destruct (resolve_redirect_counted w slug r E) as (url & -> & Hsel & Hdb).
    exists url. repeat split; try assumption.
    rewrite Hdb. apply views_of_update.
  - right. exists e. split; [reflexivity|].
    now apply resolve_failure_counts_nothing with (e := e).
Qed.

Lemma views_of_update_other (slug other : string) (d : Database) :
  other <> slug ->
  views_of other (Sql.update_views slug d) = views_of other d.
Proof.
  intros Hne. unfold views_of, Sql.update_views. cbn [urls].
  induction (urls d) as [|r rows IH]; [reflexivity|]. cbn [map find].
  destruct (Sql.slug_is slug r) eqn:E.
  - change (Sql.slug_is other (Urls.bump r)) with (Sql.slug_is other r).
    apply slug_is_true in E.
    replace (Sql.slug_is other r) with false; [exact IH|].
    symmetry. apply slug_is_false. congruence.
  - destruct (Sql.slug_is other r); [reflexivity | exact IH].
Qed.

Lemma serve_resolve_healthy (sha : string -> string) (slug : string) (e : Env)
    (d : Database) (v : Z) :
  healthy_env e ->
  views_of slug d = Some v ->
  snd (serve sha (Resolve slug) e d) = Sql.update_views slug d.
Proof.
  intros He Hv. rewrite serve_db. cbn [handle].
  unfold views_of in Hv.
  destruct (find (Sql.slug_is slug) (urls d)) as [r|] eqn:E; [|discriminate].
  rewrite (get_final_link_found (mkWorld d e 0 0) slug (Urls.original_url r)).
  - reflexivity.
  - exact He.
  - unfold Sql.select_original_url. cbn [db]. now rewrite E.
Qed.

(** X13.  Views add up: n Resolve requests for a stored slug, served one
    after the other on working storage, raise its view count by exactly n
    and leave the count of every other slug as it was. *)
Theorem resolves_add_up :
  forall (sha : string -> string) (slug : string) (envs : list Env)
         (d : Database) (v : Z),
    views_of slug d = Some v ->
    Forall healthy_env envs ->
    let d' := serve_all sha (map (fun e => (Resolve slug, e)) envs) d in
    views_of slug d' = Some (v + Z.of_nat (List.length envs)) /\
    (forall other, other <> slug -> views_of other d' = views_of other d).
Proof.
  intros sha slug envs. induction envs as [|e envs IH]; intros d v Hv Hall.
  - cbn. split; [rewrite Hv; f_equal; lia | reflexivity].
  - inversion Hall as [|e' envs' He Hrest]; subst.
    cbn [map serve_all List.length].
    rewrite (serve_resolve_healthy sha slug e d v He Hv).
    destruct (IH (Sql.update_views slug d) (v + 1)) as [Hcount Hothers].
    + rewrite views_of_update, Hv. reflexivity.
    + assumption.
    + split.
      * cbv zeta in Hcount. rewrite Hcount. f_equal. lia.
      * intros other Hne. cbv zeta in Hothers. rewrite (Hothers other Hne).
        now apply views_of_update_other.
Qed.

(** Three visits of abc123, stored with 7 views. *)
Lemma resolves_add_up_witness :
  let d' := serve_all sample_digest
              (map (fun e => (Resolve "abc123", e))
                 [sample_env; sample_env; sample_env])
              (db sample_world) in
  views_of "abc123" d' = Some 10 /\
  (forall other, other <> "abc123" ->
                 views_of other d' = views_of other (db sample_world)).
Proof.
  apply (resolves_add_up sample_digest "abc123"
           [sample_env; sample_env; sample_env] (db sample_world) 7).
  - reflexivity.
  - repeat constructor.
Defined.

Lemma owned_views_app (uid : string) (users_ : list Users.Row) (seq seq' : Z)
    (a b : list Urls.Row) :
  owned_views uid (mkDatabase users_ (a ++ b) seq) =
  owned_views uid (mkDatabase users_ a seq') +
  owned_views uid (mkDatabase users_ b seq').
Proof.
  unfold owned_views. cbn [urls]. rewrite filter_app, map_app.
  induction (map Urls.views (filter (Sql.owner_is uid) a)) as [|x l IH];
    simpl; lia.
Qed.

(** X14.  A visit shows in the statistics of the link's owner and of nobody
    else: after a Resolve that found the slug (working storage, unique
    slugs), the sum of views of the owner of that link is one more than
    before, and the sum of every other user is unchanged. *)
Theorem resolve_credits_the_owner :
  forall (w : World) (S : string) (before after : list Urls.Row)
         (row : Urls.Row) (uid : string),
    healthy w ->
    unique_slugs (db w) ->
    urls (db w) = before ++ row :: after ->
    Urls.slug row = S ->
    owned_views uid (db (snd (get_final_link S w))) =
    owned_views uid (db w) + (if String.eqb (Urls.user_uid row) uid then 1 else 0).
Proof.
  intros w S before after row uid H ND E HS.
  assert (Hsel : Sql.select_original_url S (db w) = Some (Urls.original_url row)).
  { unfold Sql.select_original_url. rewrite E, <- HS.
    rewrite find_slug_unique; [reflexivity|].
    unfold unique_slugs in ND. now rewrite E in ND. }
  rewrite (get_final_link_found w S _ H Hsel). cbn [snd db].
  rewrite <- HS, (update_views_unique (db w) before after row ND E).
  destruct (db w) as [us rows seq]. cbn [urls users urls_seq] in *. subst rows.
  rewrite (owned_views_app uid us seq seq before (Urls.bump row :: after)).
  rewrite (owned_views_app uid us seq seq before (row :: after)).
  unfold owned_views. cbn [urls filter].
  change (Sql.owner_is uid (Urls.bump row))
    with (String.eqb (Urls.user_uid row) uid).
  change (Sql.owner_is uid row) with (String.eqb (Urls.user_uid row) uid).
  destruct (String.eqb (Urls.user_uid row) uid);
    cbn [map fold_right Urls.views Urls.bump]; lia.
Qed.

(** A visit of abc123 credits u1. *)
Lemma resolve_credits_the_owner_witness :
  owned_views "u1" (db (snd (get_final_link "abc123" sample_world))) = 7 + 1 /\
  owned_views "u2" (db (snd (get_final_link "abc123" sample_world))) = 0 + 0.
Proof.
  split.
  - apply (resolve_credits_the_owner sample_world "abc123" [] [] sample_row "u1").
    + intros n. reflexivity.
    + unfold unique_slugs. simpl. constructor; [simpl; tauto | constructor].
    + reflexivity.
    + reflexivity.
  - apply (resolve_credits_the_owner sample_world "abc123" [] [] sample_row "u2").
    + intros n. reflexivity.
    + unfold unique_slugs. simpl. constructor; [simpl; tauto | constructor].
    + reflexivity.
    + reflexivity.
Defined.

(** ** user_stats: the list of links, the total, the failures *)

Lemma insert_desc_perm (r : Urls.Row) (l : list Urls.Row) :
  Permutation (Sql.insert_desc r l) (r :: l).
Proof.
  induction l as [|x l IH]; simpl; [apply Permutation_refl|].
  destruct (Urls.created_at x <=? Urls.created_at r).
  - apply Permutation_refl.
  - eapply Permutation_trans; [apply perm_skip, IH | apply perm_swap].
Qed.

Lemma order_by_created_desc_perm (l : list Urls.Row) :
  Permutation (Sql.order_by_created_desc l) l.
Proof.
  unfold Sql.order_by_created_desc.
  induction l as [|r l IH]; simpl; [constructor|].
  eapply Permutation_trans; [apply insert_desc_perm | now apply perm_skip].
Qed.

Lemma insert_desc_sorted (r : Urls.Row) (l : list Urls.Row) :
  StronglySorted (fun a b => Urls.created_at b <= Urls.created_at a) l ->
  StronglySorted (fun a b => Urls.created_at b <= Urls.created_at a)
    (Sql.insert_desc r l).
Proof.
  induction 1 as [|x l Hs IH Hx]; simpl.
  - constructor; constructor.
  - destruct (Z.leb_spec (Urls.created_at x) (Urls.created_at r)) as [Hle|Hlt].
    + constructor; [now constructor|].
      constructor; [assumption|].
      eapply Forall_impl; [|exact Hx]. cbv beta. intros y Hy. lia.
    + constructor; [assumption|].
      assert (Hall : Forall (fun y => Urls.created_at y <= Urls.created_at x)
                       (r :: l)) by (constructor; [lia | assumption]).
      rewrite <- (insert_desc_perm r l) in Hall. exact Hall.
Qed.

Lemma order_by_created_desc_sorted (l : list Urls.Row) :
  StronglySorted (fun a b => Urls.created_at b <= Urls.created_at a)
    (Sql.order_by_created_desc l).
Proof.
  unfold Sql.order_by_created_desc.
  induction l as [|r l IH]; simpl; [constructor|].
  now apply insert_desc_sorted.
Qed.

Lemma newest_first_map (l : list Urls.Row) :
  StronglySorted (fun a b => Urls.created_at b <= Urls.created_at a) l ->
  newest_first (map link_of l).
Proof.
  unfold newest_first. induction 1 as [|x l Hs IH Hx]; simpl; constructor.
  - assumption.
  - apply Forall_map. exact Hx.
Qed.

Lemma select_links_eq (uid : string) (d : Database) :
  Sql.select_links uid d =
  map link_of (Sql.order_by_created_desc (filter (Sql.owner_is uid) (urls d))).
Proof. reflexivity. Qed.

(** X15.  The links user_stats returns (on working storage) are the links
    of that user and no others, each once, newest first: the list is a
    permutation of the user's rows of urls, reported with slug,
    original_url, views and created_at, and its created_at values never
    increase along the list. *)
Theorem user_stats_lists_own_links :
  forall (w : World) (user_uid : string),
    healthy w ->
    exists stats,
      fst (get_user_stats user_uid w) = Return (ModelResponse stats) /\
      newest_first (UserStats.links stats) /\
      Permutation (UserStats.links stats)
        (map link_of (filter (Sql.owner_is user_uid) (urls (db w)))) /\
      (forall l, In l (UserStats.links stats) <->
                 exists r, In r (urls (db w)) /\
                           Urls.user_uid r = user_uid /\ l = link_of r).
Proof.
  intros w user_uid H. rewrite (get_user_stats_healthy w user_uid H).
  eexists. split; [reflexivity|]. cbn [UserStats.links].
  rewrite select_links_eq.
  assert (Hperm : Permutation
                    (map link_of
                       (Sql.order_by_created_desc
                          (filter (Sql.owner_is user_uid) (urls (db w)))))
                    (map link_of (filter (Sql.owner_is user_uid) (urls (db w)))))
    by apply Permutation_map, order_by_created_desc_perm.
  split; [apply newest_first_map, order_by_created_desc_sorted|].
  split; [exact Hperm|].
  intros l. split.
  - intros Hin. apply (Permutation_in _ Hperm) in Hin.
    apply in_map_iff in Hin. destruct Hin as (r & <- & Hr).
    apply filter_In in Hr. destruct Hr as [Hr Ho].
    exists r. repeat split; [assumption|]. now apply String.eqb_eq.
  - intros (r & Hr & Ho & ->).
    apply (Permutation_in _ (Permutation_sym Hperm)).
    apply in_map. apply filter_In. split; [assumption|].
    now apply String.eqb_eq.
Qed.

(** The two links of u1, the newer one first. *)
Lemma user_stats_lists_own_links_witness :
  exists stats,
    fst (get_user_stats "u1" paid_world) = Return (ModelResponse stats) /\
    newest_first (UserStats.links stats) /\
    UserStats.links stats =
      [Link.mk "ccccccc" "https://c.example" 1500 1690000002;
       Link.mk "aaaaaaa" "https://a.example" 1000 1690000000].
Proof.
  destruct (user_stats_lists_own_links paid_world "u1")
    as (stats & Hret & Hsorted & _).
  - intros n. reflexivity.
  - exists stats. split; [exact Hret|]. split; [exact Hsorted|].
    cbv in Hret. injection Hret as <-. reflexivity.
Defined.

Lemma sum_views_perm (a b : list Link.t) :
  Permutation a b ->
  fold_right Z.add 0 (map Link.views a) = fold_right Z.add 0 (map Link.views b).
Proof.
  induction 1; simpl; lia.
Qed.

Lemma owned_views_after_update (uid : string) (d : Database)
    (before after : list Urls.Row) (row : Urls.Row) :
  unique_slugs d ->
  urls d = before ++ row :: after ->
  owned_views uid (Sql.update_views (Urls.slug row) d) =
  owned_views uid d + (if String.eqb (Urls.user_uid row) uid then 1 else 0).
Proof.
  intros ND E. rewrite (update_views_unique d before after row ND E).
  destruct d as [us rows seq]. cbn [urls users urls_seq] in *. subst rows.
  rewrite (owned_views_app uid us seq seq before (Urls.bump row :: after)).
  rewrite (owned_views_app uid us seq seq before (row :: after)).
  unfold owned_views. cbn [urls filter].
  change (Sql.owner_is uid (Urls.bump row))
    with (String.eqb (Urls.user_uid row) uid).
  change (Sql.owner_is uid row) with (String.eqb (Urls.user_uid row) uid).
  destruct (String.eqb (Urls.user_uid row) uid);
    cbn [map fold_right Urls.views Urls.bump]; lia.
Qed.

Lemma links_sum (uid : string) (d : Database) :
  fold_right Z.add 0 (map Link.views (Sql.select_links uid d)) =
  owned_views uid d.
Proof.
  rewrite select_links_eq.
  rewrite (sum_views_perm _ _
             (Permutation_map link_of
                (order_by_created_desc_perm
                   (filter (Sql.owner_is uid) (urls d))))).
  unfold owned_views. rewrite map_map. reflexivity.
Qed.

(** The run of user_stats while [others] are served between its two
    SELECTs. *)
Lemma get_user_stats_amid_healthy (sha : string -> string) (w : World)
    (user_uid : string) (others : list (Request * Env)) :
  healthy w ->
  get_user_stats_amid sha user_uid others w =
  (let total_views := owned_views user_uid (db w) in
   Return (ModelResponse
             (UserStats.mk total_views
                (Py.round (Py.float_mul (Py.int_truediv total_views 1000) cpm) 2)
                cpm 0
                (Sql.select_links user_uid (serve_all sha others (db w))))),
   mkWorld (serve_all sha others (db w)) (env w) (3 + calls w) (draws w)).
Proof.
  intros H. unfold get_user_stats_amid, meanwhile. run_handler.
  do 3 storage_ok H. now rewrite or_zero_sum_views.
Qed.

(** X16.  The total and the list come from two SELECTs, each reading the
    committed database of its moment: total_views is the sum of the user's
    views at the first, the links carry the views at the second.  Served
    alone (no other request in between) the handler is get_user_stats and
    total_views equals the sum of the views of the returned links, as it
    does whenever the user's links are the same at both SELECTs; a Resolve
    of one of the user's slugs committed in between shows in the links but
    not in the total, which is then exactly 1 short of the links' sum. *)
Theorem user_stats_total_matches_links :
  forall (sha : string -> string) (w : World) (user_uid : string)
         (others : list (Request * Env)),
    healthy w ->
    get_user_stats_amid sha user_uid [] w = get_user_stats user_uid w /\
    exists stats,
      fst (get_user_stats_amid sha user_uid others w) =
        Return (ModelResponse stats) /\
      UserStats.total_views stats = owned_views user_uid (db w) /\
      fold_right Z.add 0 (map Link.views (UserStats.links stats)) =
        owned_views user_uid (serve_all sha others (db w)) /\
      (filter (Sql.owner_is user_uid) (urls (serve_all sha others (db w))) =
       filter (Sql.owner_is user_uid) (urls (db w)) ->
       UserStats.total_views stats =
       fold_right Z.add 0 (map Link.views (UserStats.links stats))) /\
      (forall (e : Env) (before after : list Urls.Row) (row : Urls.Row),
          others = [(Resolve (Urls.slug row), e)] ->
          healthy_env e ->
          unique_slugs (db w) ->
          urls (db w) = before ++ row :: after ->
          Urls.user_uid row = user_uid ->
          fold_right Z.add 0 (map Link.views (UserStats.links stats)) =
          UserStats.total_views stats + 1).
Proof.
  intros sha w user_uid others H. split.
  - rewrite (get_user_stats_amid_healthy sha w user_uid [] H).
    now rewrite (get_user_stats_healthy w user_uid H).
  - rewrite (get_user_stats_amid_healthy sha w user_uid others H).
    eexists. split; [reflexivity|].
    cbn [UserStats.links UserStats.total_views].
    split; [reflexivity|]. split; [apply links_sum|]. split.
    + intros Hsame. rewrite links_sum. unfold owned_views. now rewrite Hsame.
    + intros e before after row -> He ND E Howner. rewrite links_sum.
      cbn [serve_all].
      assert (Hv : views_of (Urls.slug row) (db w) = Some (Urls.views row)).
      { unfold views_of. rewrite E, find_slug_unique; [reflexivity|].
        unfold unique_slugs in ND. now rewrite E in ND. }
      rewrite (serve_resolve_healthy sha _ e (db w) _ He Hv).
      rewrite (owned_views_after_update user_uid (db w) before after row ND E).
      rewrite Howner, String.eqb_refl. reflexivity.
Qed.

(** u1 asks for statistics: alone, and while a visit of aaaaaaa is
    resolved between the two SELECTs. *)
Lemma user_stats_total_matches_links_witness :
  (exists stats,
      fst (get_user_stats_amid sample_digest "u1" [] paid_world) =
        Return (ModelResponse stats) /\
      UserStats.total_views stats = 2500 /\
      UserStats.total_views stats =
      fold_right Z.add 0 (map Link.views (UserStats.links stats))) /\
  (exists stats,
      fst (get_user_stats_amid sample_digest "u1"
             [(Resolve "aaaaaaa", sample_env)] paid_world) =
        Return (ModelResponse stats) /\
      UserStats.total_views stats = 2500 /\
      fold_right Z.add 0 (map Link.views (UserStats.links stats)) = 2500 + 1).
Proof.
  split.
  - destruct (user_stats_total_matches_links sample_digest paid_world "u1" [])
      as [_ (stats & Hret & Htotal & _ & Hsame & _)].
    + intros n. reflexivity.
    + exists stats. split; [exact Hret|]. split; [exact Htotal|].
      apply Hsame. reflexivity.
  - destruct (user_stats_total_matches_links sample_digest paid_world "u1"
                [(Resolve "aaaaaaa", sample_env)])
      as [_ (stats & Hret & Htotal & _ & _ & Hvisit)].
    + intros n. reflexivity.
    + exists stats. split; [exact Hret|]. split; [exact Htotal|].
      rewrite (Hvisit sample_env []
                 [Urls.mk 2 "bbbbbbb" "https://b.example" "u2" 40 1690000001;
                  Urls.mk 3 "ccccccc" "https://c.example" "u1" 1500 1690000002]
                 (Urls.mk 1 "aaaaaaa" "https://a.example" "u1" 1000 1690000000)).
      * rewrite Htotal. reflexivity.
      * reflexivity.
      * intros n. reflexivity.
      * unfold unique_slugs. simpl.
        repeat (constructor; [simpl; intuition discriminate|]). constructor.
      * reflexivity.
      * reflexivity.
Defined.

(** X17.  user_stats hides every failure behind one error: whatever the
    storage layer does, it either returns the statistics or raises
    HTTPException(500, "Error fetching user stats."); and when a storage
    call of the request raises, it is the latter.  A sqlite3 exception never
    leaves the handler. *)
Theorem user_stats_failure_is_500 :
  forall (w : World) (user_uid : string),
    ((exists stats, fst (get_user_stats user_uid w) = Return (ModelResponse stats)) \/
     fst (get_user_stats user_uid w) =
       Raise (HTTPException 500 "Error fetching user stats.")) /\
    (forall e,
        storage_raised w (snd (get_user_stats user_uid w)) e ->
        fst (get_user_stats user_uid w) =
          Raise (HTTPException 500 "Error fetching user stats.") /\
        http_status (fst (get_user_stats user_uid w)) = 500).
Proof.
  intros w user_uid. split.
  - unfold get_user_stats. run_handler.
    repeat (storage_any; [right; reflexivity|]). left. eexists. reflexivity.
  - intros e. unfold get_user_stats. run_handler.
    repeat (storage_any; [intros _; split; reflexivity|]).
    raised_call.
Qed.

(** user_stats on a database file that cannot be opened. *)
Lemma user_stats_failure_is_500_witness :
  fst (get_user_stats "u1" failing_world) =
    Raise (HTTPException 500 "Error fetching user stats.") /\
  http_status (fst (get_user_stats "u1" failing_world)) = 500.
Proof.
  destruct (user_stats_failure_is_500 failing_world "u1") as [_ H].
  apply (H (OperationalError "unable to open database file")).
  apply failing_world_raises. simpl. lia.
Defined.

(** X18.  The float arithmetic of user_stats loses nothing below 10000
    views: for a user whose links have fewer than 10000 views together,
    the total_earnings returned (on working storage) is the float nearest
    to total_views * 4 / 1000 rounded half-even to two decimals in exact
    arithmetic. *)
Theorem user_stats_earnings_exact :
  forall (w : World) (user_uid : string),
    healthy w ->
    0 <= owned_views user_uid (db w) < 10000 ->
    exists stats,
      fst (get_user_stats user_uid w) = Return (ModelResponse stats) /\
      UserStats.total_earnings stats =
      earnings_exact (owned_views user_uid (db w)).
Proof.
  intros w user_uid H Hsmall. rewrite (get_user_stats_healthy w user_uid H).
  eexists. split; [reflexivity|]. cbn [UserStats.total_earnings].
  now apply earnings_exact_below_10000.
Qed.

(** 2500 views: 1000 hundredths, the float 10.0. *)
Lemma user_stats_earnings_exact_witness :
  exists stats,
    fst (get_user_stats "u1" paid_world) = Return (ModelResponse stats) /\
    UserStats.total_earnings stats = earnings_exact 2500.
Proof.
  apply (user_stats_earnings_exact paid_world "u1").
  - intros n. reflexivity.
  - vm_compute. split; [discriminate | reflexivity].
Defined.

(** ** The pages: where they lead *)

(** X19.  Where the Stage-1 page leads, for every base URL and slug: its
    script sets baseUrl to the given base URL, loads
    ${baseUrl}/ad_page2_content/<slug> (Advance for the same slug) into the
    frame on "Get Link", and on the frame's redirect message goes to
    ${baseUrl}/go_to_original/ followed by the slug of the message
    (Resolve). *)
Theorem stage_1_page_leads_on :
  forall (base_url slug : string),
    let page := ad_page_1_html base_url slug in
    embeds ("const baseUrl = " ++ dq ++ base_url ++ dq ++ ";") page /\
    embeds ("iframe.src = `${baseUrl}/ad_page2_content/" ++ slug ++ "`;") page /\
    embeds
      "window.location.href = `${baseUrl}/go_to_original/${event.data.slug}`;"
      page.
Proof.
  intros base_url slug page. unfold page, ad_page_1_html.
  destruct page1_around_base_url as [[h0 Hh] [m1 Hm1]].
  destruct page1_around_slug as [[m0 Hm0] [t1 Ht]].
  destruct page1_redirect_listener as (a & b & Hl).
  split; [|split].
  - exists h0, (m1 ++ slug ++ page1_tail)%string.
    rewrite Hh, Hm1. now rewrite !append_assoc.
  - exists (page1_head ++ base_url ++ m0)%string, t1.
    rewrite Hm0, Ht. now rewrite !append_assoc.
  - exists (page1_head ++ base_url ++ a)%string, (b ++ slug ++ page1_tail)%string.
    rewrite Hl. now rewrite !append_assoc.
Qed.

(** X20.  The base URL that Enter puts into the page is the request's
    base URL without its trailing slashes, all of them: the request's
    value is the embedded one followed by slashes only, and the embedded
    one does not end with a slash, so that baseUrl + "/go_to_original/..."
    has a single slash. *)
Theorem enter_base_url_has_no_trailing_slash :
  forall (request : HttpRequest.t),
    let base_url := Py.rstrip_slash (HttpRequest.base_url request) in
    (exists n, HttpRequest.base_url request = (base_url ++ slashes n)%string) /\
    (forall before, base_url <> (before ++ "/")%string).
Proof.
  intros [raw]. cbn [HttpRequest.base_url]. cbv zeta. split.
  - induction raw as [|c rest [n IH]]; [exists 0%nat; reflexivity|].
    cbn [Py.rstrip_slash].
    destruct (Py.rstrip_slash rest) as [|k kept] eqn:E.
    + simpl in IH. destruct (Ascii.eqb_spec c "/") as [->|Hc].
      * exists (S n). simpl. now rewrite IH.
      * exists n. simpl. now rewrite IH.
    + exists n. simpl. f_equal. exact IH.
  - induction raw as [|c rest IH]; intros before; cbn [Py.rstrip_slash].
    + destruct before; discriminate.
    + destruct (Py.rstrip_slash rest) as [|k kept] eqn:E.
      * destruct (Ascii.eqb_spec c "/") as [->|Hc].
        -- destruct before; discriminate.
        -- destruct before as [|b before]; simpl; intros H.
           ++ injection H as ->. now apply Hc.
           ++ injection H as _ H. destruct before; discriminate.
      * destruct before as [|b before]; simpl; intros H.
        -- discriminate.
        -- injection H as _ H. now apply (IH before).
Qed.

Lemma substring_prefix (n : nat) (s : string) :
  (n <= String.length s)%nat ->
  String.length (substring 0 n s) = n /\
  exists rest, s = (substring 0 n s ++ rest)%string.
Proof.
  revert s. induction n as [|n IH]; intros s Hn.
  - split; [now destruct s|]. exists s. now destruct s.
  - destruct s as [|c s]; [simpl in Hn; lia|]. simpl in Hn.
    destruct (IH s) as [Hlen [rest Hrest]]; [lia|].
    cbn [substring]. split; [simpl; now rewrite Hlen|].
    exists rest. simpl. now rewrite <- Hrest.
Qed.

(** X21.  generate_slug draws exactly one uuid, makes no storage call and
    changes nothing else; the slug is the first seven characters of the
    uuid's hex digits, so it has length 7 whenever the hex string has at
    least 7 characters (uuid4().hex has 32). *)
Theorem generate_slug_seven_digits :
  forall (w : World),
    (7 <= String.length (uuid_at (env w) (draws w)))%nat ->
    exists slug rest,
      generate_slug w =
        (Return slug, mkWorld (db w) (env w) (calls w) (S (draws w))) /\
      String.length slug = 7%nat /\
      uuid_at (env w) (draws w) = (slug ++ rest)%string.
Proof.
  intros w Hlen.
  destruct (substring_prefix 7 _ Hlen) as [H7 [rest Hrest]].
  exists (substring 0 7 (uuid_at (env w) (draws w))), rest.
  split; [reflexivity|]. split; assumption.
Qed.

(** The sample uuid gives the slug 0123456. *)
Lemma generate_slug_seven_digits_witness :
  exists slug rest,
    generate_slug sample_world =
      (Return slug, mkWorld (db sample_world) sample_env 0 1) /\
    String.length slug = 7%nat /\
    "0123456789abcdef0123456789abcdef" = (slug ++ rest)%string.
Proof.
  apply (generate_slug_seven_digits sample_world). simpl. lia.
Defined.

(** X22.  Where the Stage-2 page leads, for every slug (stored or not, and
    inserted as it is, without escaping): its script holds the slug as a
    string constant, and on "Get Final Link" posts to the parent window the
    message {action: 'redirect', slug: <slug>}, on which the Stage-1 page
    goes to Resolve. *)
Theorem stage_2_page_signals_resolve :
  forall (slug : string),
    embeds ("const slug = " ++ dq ++ slug ++ dq ++ ";") (ad_page_2_html slug) /\
    embeds
      ("window.parent.postMessage({
                action: 'redirect',
                slug: " ++ dq ++ slug ++ dq)
      (ad_page_2_html slug).
Proof.
  intros slug. unfold ad_page_2_html.
  destruct page2_around_slugs as ([h0 Hh] & [m1 Hm] & [t1 Ht]).
  split.
  - exists h0,
      (m1 ++ "window.parent.postMessage({
                action: 'redirect',
                slug: " ++ dq ++ slug ++ page2_tail)%string.
    rewrite Hh, Hm. now rewrite !append_assoc.
  - exists (page2_head ++ slug ++ (dq ++ ";") ++ m1)%string, t1.
    rewrite Hm, Ht. now rewrite !append_assoc.
Qed.

(** ** Concurrent Resolve calls: failures and progress *)





(** ** Writes are all or nothing *)

(** X25.  register_user_data writes all or nothing, whatever the storage
    layer does: either the database is exactly as before, or the answer is
    "Registration successful!" and the database is the old one with one
    user appended (links untouched).  In particular a failed commit leaves
    no account behind. *)
Theorem register_all_or_nothing :
  forall (sha : string -> string) (w : World) (user : UserRegister.t),
    db (snd (register_user_data sha user w)) = db w \/
    (fst (register_user_data sha user w) =
       Return (JSONResponse 200
                 [("success", JBool true);
                  ("message", JStr "Registration successful!")]) /\
     exists row,
       Users.username row = UserRegister.username user /\
       Users.email row = UserRegister.email user /\
       Users.password_hash row = sha (UserRegister.password user) /\
       db (snd (register_user_data sha user w)) =
       mkDatabase (users (db w) ++ [row]) (urls (db w)) (urls_seq (db w))).
Proof.
  intros sha w user. unfold register_user_data. run_cases;
    try (left; reflexivity).
  all: right; split; [reflexivity|].
  all: match goal with
       | E : Sql.insert_user ?r _ = inr _ |- _ =>
           exists r; unfold Sql.insert_user in E;
           repeat match type of E with
                  | context [if ?b then _ else _] => destruct b
                  end; try discriminate E; injection E as <-
       end; repeat split.
Qed.

(** X26.  shorten_url writes all or nothing, whatever the storage layer
    does: either the database is exactly as before, or the answer is 200
    with a slug and the database is the old one with one link appended,
    carrying that slug, the requested url and owner, and no views. *)
Theorem shorten_url_all_or_nothing :
  forall (w : World) (link : UrlShorten.t),
    db (snd (shorten_url link w)) = db w \/
    exists row,
      fst (shorten_url link w) =
        Return (JSONResponse 200
                  [("success", JBool true); ("slug", JStr (Urls.slug row))]) /\
      Urls.original_url row = UrlShorten.url link /\
      Urls.user_uid row = UrlShorten.user_uid link /\
      Urls.views row = 0 /\
      users (db (snd (shorten_url link w))) = users (db w) /\
      urls (db (snd (shorten_url link w))) = urls (db w) ++ [row].
Proof.
  intros w link. unfold shorten_url. run_cases; try (left; reflexivity).
  right.
  match goal with
  | E : Sql.insert_url ?s ?u ?o ?t ?d = inr _ |- _ =>
      exists (Urls.mk (Sql.next_id d) s u o 0 t);
      pose proof (insert_url_urls _ _ _ _ _ _ E);
      pose proof (insert_url_users _ _ _ _ _ _ E)
  end.
  repeat split; assumption.
Qed.
